(** * arpc: the message handler (handler.go)

    A shallow embedding of [handler.go]: the route table and [Handle], the
    receive path [Recv], the send path [Send]/[SendN] and the dispatcher
    [OnMessage], followed by the properties the specification states about
    them.

    Go's effects are written out: a function that mutates its receiver or a
    connection returns the new state next to its results, [panic], [defer]
    and [recover] are interpreted by a small frame monad, and the observable
    actions of the dispatcher (pool traffic, log lines, correlation lookups,
    user-code invocations) are appended to a trace in program order. *)

From Stdlib Require Import ZArith.
From Stdlib.Strings Require Import Byte.
From stdpp Require Import gmap strings list.

Open Scope string_scope.
Open Scope list_scope.
Open Scope Z_scope.

(** ** Values shared by every part *)

#[global] Instance byte_eq_dec : EqDecision byte := Byte.byte_eq_dec.

(** A [%v] argument of a format string. *)
Inductive fmtArg :=
| ArgInt (n : Z)
| ArgStr (s : string).

(** Go [error] values that occur in the handler: the two [io] sentinels,
    [fmt.Errorf] values, and errors coming from a hook or from the
    transport.  [nil] is [None] in [option error]. *)
Inductive error :=
| EOF
| ErrUnexpectedEOF
| Errorf (format : string) (args : list fmtArg)
| ErrExternal (what : string).

#[global] Instance fmtArg_eq_dec : EqDecision fmtArg.
Proof. solve_decision. Defined.

#[global] Instance error_eq_dec : EqDecision error.
Proof. solve_decision. Defined.

(** A value given to [panic]. *)
Definition PanicVal := error.

(** [Message] and [Header] are byte slices; a nil slice is the empty list. *)
Definition Message := list byte.
Definition Header := list byte.

(** Modelled from the spec: the wire-frame codec is not part of [handler.go].
    The constants [HeadLen], [MaxMethodLen], [CmdRequest], [CmdNotify],
    [CmdResponse], the accessors of [Message] and [Header.message] (decode
    the head and hand out a buffer of the total length that starts with the
    head) are parameters of the development.  Lengths are natural numbers,
    the sequence number is an integer.  The [switch] of [OnMessage] lists
    the three command constants as cases, which Go accepts only for distinct
    constants. *)
Class WireFormat := {
  HeadLen : nat;
  MaxMethodLen : nat;
  CmdRequest : byte;
  CmdNotify : byte;
  CmdResponse : byte;
  Cmd : Message -> byte;
  MethodLen : Message -> nat;
  Method : Message -> string;
  IsAsync : Message -> bool;
  Seq : Message -> Z;
  message : Header -> Message * option error;
  CmdRequest_not_Response : CmdRequest <> CmdResponse;
  CmdNotify_not_Response : CmdNotify <> CmdResponse
}.

(** ** Connections and readers *)

(** [net.Conn], as far as the handler uses it: the bytes accepted so far and
    how the next writes behave.  [room = None] is a healthy connection;
    [room = Some k] accepts [k] more bytes and then fails with [werr]. *)
Record net_Conn := {
  written : list byte;
  room : option nat;
  werr : error
}.

(** [conn.Write(p)]: the number of bytes taken and the error, which is
    non-nil exactly when fewer than [len(p)] bytes were taken. *)
Definition conn_Write (conn : net_Conn) (p : list byte)
  : (Z * option error) * net_Conn :=
  match room conn with
  | None =>
      ((Z.of_nat (length p), None),
       {| written := written conn ++ p; room := None; werr := werr conn |})
  | Some k =>
      if (length p <=? k)%nat then
        ((Z.of_nat (length p), None),
         {| written := written conn ++ p;
            room := Some (k - length p)%nat; werr := werr conn |})
      else
        ((Z.of_nat k, Some (werr conn)),
         {| written := written conn ++ take k p;
            room := Some 0%nat; werr := werr conn |})
  end.

(** [net.Buffers.WriteTo(conn)]: the buffers are written one after the
    other; the first failing write ends the call. *)
Fixpoint Buffers_WriteTo (buffers : list (list byte)) (conn : net_Conn) (n : Z)
  : (Z * option error) * net_Conn :=
  match buffers with
  | [] => ((n, None), conn)
  | b :: rest =>
      let '((nb, err), conn') := conn_Write conn b in
      match err with
      | Some e => ((n + nb, Some e), conn')
      | None => Buffers_WriteTo rest conn' (n + nb)
      end
  end.

(** An [io.Reader]: the bytes it will still deliver, then [rd_err] forever. *)
Record io_Reader := {
  rd_data : list byte;
  rd_err : error
}.

(** The error of [io.ReadFull] on a stream that ends too early: [EOF] when
    nothing could be read, [ErrUnexpectedEOF] when the stream ended with
    [EOF] inside the buffer, and the reader's own error otherwise. *)
Definition short_read_error (r : io_Reader) : error :=
  if bool_decide (rd_data r <> []) && bool_decide (rd_err r = EOF)
  then ErrUnexpectedEOF
  else rd_err r.

(** [io.ReadFull(r, buf)]: fills [buf] completely or fails.  The result is
    the buffer after the call, the byte count and the error. *)
Definition ReadFull (r : io_Reader) (buf : list byte)
  : (list byte * Z * option error) * io_Reader :=
  let n := length buf in
  let avail := rd_data r in
  if (n <=? length avail)%nat then
    ((take n avail, Z.of_nat n, None),
     {| rd_data := drop n avail; rd_err := rd_err r |})
  else
    ((avail ++ drop (length avail) buf, Z.of_nat (length avail),
      Some (short_read_error r)),
     {| rd_data := []; rd_err := rd_err r |}).

(** A pre-receive or pre-send hook, [func(net.Conn) error]. *)
Definition Hook := net_Conn -> option error * net_Conn.

(** ** User code, contexts and clients *)

(** Modelled from the spec: the dispatch context pairs the connection's
    client with a message; [OnMessage] runs for one client, whose state is
    part of the world, so the context records the message. *)
Record Context := { ctxMessage : Message }.

Section Handler.

(** The application's own state, reachable only from user code. *)
Context {U : Type}.
Context `{WF : WireFormat}.

(** [HandlerFunc]: user code.  It may write to the client's connection and
    change the application state, and it returns normally ([None]) or
    panics. *)
Definition HandlerFunc : Type :=
  Context -> net_Conn * U -> (net_Conn * U) * option PanicVal.

(** Modelled from the spec: a session is the single-use rendezvous slot of a
    blocking call; [done] holds what was sent on its channel. *)
Record rpcSession := { done : list Message }.

(** Modelled from the spec: the fields of [Client] that the handler touches:
    the connection, the wrapped reader, the head buffer of the receive loop
    and the two correlation tables keyed by sequence number. *)
Record Client := {
  Conn : net_Conn;
  Reader : io_Reader;
  Head : Header;
  sessionMap : gmap Z rpcSession;
  asyncHandlerMap : gmap Z HandlerFunc
}.

(** The [handler] struct.  A nil func or a nil map is [None]. *)
Record handler := {
  batchRecv : bool;
  batchSend : bool;
  sendQueueSize : Z;
  beforeRecv : option Hook;
  beforeSend : option Hook;
  wrapReader : option (net_Conn -> io_Reader);
  routes : option (gmap string HandlerFunc)
}.

Definition set_routes (h : handler) (r : option (gmap string HandlerFunc)) : handler :=
  {| batchRecv := batchRecv h; batchSend := batchSend h;
     sendQueueSize := sendQueueSize h;
     beforeRecv := beforeRecv h; beforeSend := beforeSend h;
     wrapReader := wrapReader h; routes := r |}.

(** Reading a Go map: a nil map has no entries. *)
Definition route_lookup (h : handler) (method : string) : option HandlerFunc :=
  match routes h with
  | Some r => r !! method
  | None => None
  end.

(** ** Handle *)

(** [Handle(method, cb)].  The receiver is mutated, so the handler after the
    call is returned together with the panic value, if any.  The empty map is
    installed before either check runs. *)
Definition Handle (h : handler) (method : string) (cb : HandlerFunc)
  : handler * option PanicVal :=
  let r := match routes h with
           | None => ∅
           | Some r => r
           end in
  let h := set_routes h (Some r) in
  if (MaxMethodLen <? String.length method)%nat then
    (h, Some (Errorf "invalid method length %v(> MaxMethodLen %v)"
                [ArgInt (Z.of_nat (String.length method));
                 ArgInt (Z.of_nat MaxMethodLen)]))
  else
    match r !! method with
    | Some _ =>
        (h, Some (Errorf "handler exist for method %v " [ArgStr method]))
    | None =>
        (set_routes h (Some (<[method := cb]> r)), None)
    end.

(** ** Recv *)

Definition set_Conn (c : Client) (conn : net_Conn) : Client :=
  {| Conn := conn; Reader := Reader c; Head := Head c;
     sessionMap := sessionMap c; asyncHandlerMap := asyncHandlerMap c |}.

Definition set_Reader (c : Client) (rd : io_Reader) : Client :=
  {| Conn := Conn c; Reader := rd; Head := Head c;
     sessionMap := sessionMap c; asyncHandlerMap := asyncHandlerMap c |}.

Definition set_Head (c : Client) (hd : Header) : Client :=
  {| Conn := Conn c; Reader := Reader c; Head := hd;
     sessionMap := sessionMap c; asyncHandlerMap := asyncHandlerMap c |}.

(** [Recv(c)].  The client is behind a pointer: its connection, reader and
    head buffer after the call are returned with the results.  The body is
    read into [message[HeadLen:]], the tail of the buffer that
    [Header.message] handed out. *)
Definition Recv (h : handler) (c : Client) : (Message * option error) * Client :=
  let '(err, c) :=
    match beforeRecv h with
    | Some hook => let '(err, conn) := hook (Conn c) in (err, set_Conn c conn)
    | None => (None, c)
    end in
  match err with
  | Some e => (([], Some e), c)
  | None =>
      let '((head, _, err), rd) := ReadFull (Reader c) (Head c) in
      let c := set_Head (set_Reader c rd) head in
      match err with
      | Some e => (([], Some e), c)
      | None =>
          let '(msg, err) := message (Head c) in
          if bool_decide (err = None) && (HeadLen <? length msg)%nat then
            let '((body, _, err), rd) := ReadFull (Reader c) (drop HeadLen msg) in
            ((take HeadLen msg ++ body, err), set_Reader c rd)
          else
            ((msg, err), c)
      end
  end.

(** ** Send and SendN *)

Definition Send (h : handler) (conn : net_Conn) (m : Message)
  : (Z * option error) * net_Conn :=
  match beforeSend h with
  | Some hook =>
      match hook conn with
      | (Some err, conn) => ((-1, Some err), conn)
      | (None, conn) => conn_Write conn m
      end
  | None => conn_Write conn m
  end.

Definition SendN (h : handler) (conn : net_Conn) (buffers : list (list byte))
  : (Z * option error) * net_Conn :=
  match beforeSend h with
  | Some hook =>
      match hook conn with
      | (Some err, conn) => ((-1, Some err), conn)
      | (None, conn) => Buffers_WriteTo buffers conn 0
      end
  | None => Buffers_WriteTo buffers conn 0
  end.

(** ** The world of the dispatcher *)

Inductive Level := LInfo | LWarn.

(** What the dispatcher does that can be seen from outside. *)
Inductive Event :=
| EvLog (lvl : Level) (format : string) (args : list fmtArg)
| EvCtxGet (ctx : Context)
| EvCtxPut (ctx : Context)
| EvMemPut (m : Message)
| EvGetSession (seq : Z)
| EvChanSend (seq : Z) (m : Message)
| EvGetAndDeleteAsyncHandler (seq : Z)
| EvInvoke (ctx : Context)
| EvRecovered (v : PanicVal).

(** [OnMessage(c, msg)] runs against the client [c], the application state
    and the process-wide pools and logger; [w_client] is the client behind
    the pointer [c], the trace stands for pools and logger. *)
Record World := {
  w_client : Client;
  w_app : U;
  w_trace : list Event
}.

Definition emit (e : Event) (w : World) : World :=
  {| w_client := w_client w; w_app := w_app w; w_trace := w_trace w ++ [e] |}.

Definition set_client (w : World) (c : Client) : World :=
  {| w_client := c; w_app := w_app w; w_trace := w_trace w |}.

(** [DefaultLogger.Warn] and [DefaultLogger.Info]. *)
Definition Warn (format : string) (args : list fmtArg) : World -> World :=
  emit (EvLog LWarn format args).

Definition Info (format : string) (args : list fmtArg) : World -> World :=
  emit (EvLog LInfo format args).

(** Modelled from the spec: [memPut] hands a message buffer back to the
    pool. *)
Definition memPut (m : Message) : World -> World := emit (EvMemPut m).

(** Modelled from the spec: [ctxGet] takes a context from the pool and fills
    it, [ctxPut] hands it back. *)
Definition ctxGet (m : Message) (w : World) : Context * World :=
  let ctx := {| ctxMessage := m |} in (ctx, emit (EvCtxGet ctx) w).

Definition ctxPut (ctx : Context) : World -> World := emit (EvCtxPut ctx).

(** Modelled from the spec: [c.getSession(seq)] looks the session table up
    and leaves it as it is. *)
Definition getSession (seq : Z) (w : World) : option rpcSession * World :=
  (sessionMap (w_client w) !! seq, emit (EvGetSession seq) w).

(** Modelled from the spec: [session.done <- msg] for the session found
    under [seq]; the message is now held by the session's channel. *)
Definition chan_send (seq : Z) (m : Message) (w : World) : World :=
  let c := w_client w in
  let c' :=
    {| Conn := Conn c; Reader := Reader c; Head := Head c;
       sessionMap :=
         alter (fun s => {| done := done s ++ [m] |}) seq (sessionMap c);
       asyncHandlerMap := asyncHandlerMap c |} in
  emit (EvChanSend seq m) (set_client w c').

(** Modelled from the spec: [c.getAndDeleteAsyncHandler(seq)] takes the
    callback out of the async table: a hit removes the entry. *)
Definition getAndDeleteAsyncHandler (seq : Z) (w : World)
  : option HandlerFunc * World :=
  let c := w_client w in
  let c' :=
    {| Conn := Conn c; Reader := Reader c; Head := Head c;
       sessionMap := sessionMap c;
       asyncHandlerMap := delete seq (asyncHandlerMap c) |} in
  (asyncHandlerMap c !! seq,
   emit (EvGetAndDeleteAsyncHandler seq) (set_client w c')).

(** Calling user code [handler(ctx)]: it runs on the client's connection and
    the application state. *)
Definition invoke (f : HandlerFunc) (ctx : Context) (w : World)
  : World * option PanicVal :=
  let w := emit (EvInvoke ctx) w in
  let '((conn, app), p) := f ctx (Conn (w_client w), w_app w) in
  ({| w_client := set_Conn (w_client w) conn; w_app := app;
      w_trace := w_trace w |}, p).

(** ** Function frames: return, panic, defer, recover *)

(** How a statement ends: it completes with a value, it executes [return],
    or it panics. *)
Inductive Result (A : Type) :=
| Val (a : A)
| Returned
| Panicked (v : PanicVal).

Arguments Val {A} a.
Arguments Returned {A}.
Arguments Panicked {A} v.

(** A deferred call sees whether the frame is panicking and may [recover]:
    it returns the panic that is still in flight when it is done. *)
Definition Deferred : Type := option PanicVal -> World -> World * option PanicVal.

(** A running frame: the world and the deferred calls, the latest first. *)
Record Frame := {
  fr_world : World;
  fr_defers : list Deferred
}.

Definition Go (A : Type) : Type := Frame -> Result A * Frame.

Definition pure {A} (a : A) : Go A := fun fr => (Val a, fr).

Definition bind {A B} (m : Go A) (k : A -> Go B) : Go B :=
  fun fr =>
    match m fr with
    | (Val a, fr') => k a fr'
    | (Returned, fr') => (Returned, fr')
    | (Panicked v, fr') => (Panicked v, fr')
    end.

(** A call that cannot panic and yields a value. *)
Definition lift {A} (f : World -> A * World) : Go A :=
  fun fr =>
    let '(a, w) := f (fr_world fr) in
    (Val a, {| fr_world := w; fr_defers := fr_defers fr |}).

(** A call that cannot panic and yields nothing. *)
Definition exec (f : World -> World) : Go unit :=
  lift (fun w => (tt, f w)).

(** A call that may panic. *)
Definition call (f : World -> World * option PanicVal) : Go unit :=
  fun fr =>
    let '(w, p) := f (fr_world fr) in
    let fr' := {| fr_world := w; fr_defers := fr_defers fr |} in
    match p with
    | Some v => (Panicked v, fr')
    | None => (Val tt, fr')
    end.

(** [defer d]. *)
Definition defer (d : Deferred) : Go unit :=
  fun fr =>
    (Val tt, {| fr_world := fr_world fr; fr_defers := d :: fr_defers fr |}).

(** [return]. *)
Definition ret {A} : Go A := fun fr => (Returned, fr).

(** A deferred closure that does not call [recover]. *)
Definition closure (f : World -> World) : Deferred :=
  fun p w => (f w, p).

(** Leaving a frame: the deferred calls run, the latest first, each one
    seeing the panic the previous ones left. *)
Fixpoint run_defers (ds : list Deferred) (p : option PanicVal) (w : World)
  : World * option PanicVal :=
  match ds with
  | [] => (w, p)
  | d :: rest => let '(w', p') := d p w in run_defers rest p' w'
  end.

(** A function with result-less body [body], as its callers see it: the
    world after the call and the panic that leaves it, if any. *)
Definition func (body : Go unit) (w : World) : World * option PanicVal :=
  let '(r, fr) := body {| fr_world := w; fr_defers := [] |} in
  let p := match r with
           | Panicked v => Some v
           | _ => None
           end in
  run_defers (fr_defers fr) p (fr_world fr).

(** Modelled from the spec: [handlePanic] is the guard deferred around user
    code; it recovers the panic in flight, if any, and reports it. *)
Definition handlePanic : Deferred :=
  fun p w =>
    match p with
    | Some v => (emit (EvRecovered v) w, None)
    | None => (w, None)
    end.

(** ** OnMessage *)

#[local] Notation "x <- m ;; k" := (bind m (fun x => k))
  (at level 100, m at next level, right associativity, only parsing).
#[local] Notation "m ;; k" := (bind m (fun _ => k))
  (at level 100, right associativity, only parsing).

(** The guarded invocation shared by both dispatch branches: take a
    context, defer the release of context and message, defer the panic
    guard, run the user code. *)
Definition dispatch (handler : HandlerFunc) (msg : Message) : Go unit :=
  ctx <- lift (ctxGet msg) ;;
  defer (closure (fun w => memPut msg (ctxPut ctx w))) ;;
  defer handlePanic ;;
  call (invoke handler ctx).

(** [OnMessage(c, msg)], with [c] the client of the world it runs in.  The
    result is the world after the call and the panic that escapes it. *)
Definition OnMessage (h : handler) (msg : Message) : World -> World * option PanicVal :=
  func (
    if bool_decide (Cmd msg = CmdRequest) || bool_decide (Cmd msg = CmdNotify) then
      if (MethodLen msg =? 0)%nat then
        exec (Warn "OnMessage: invalid request message with 0 method length, dropped" []) ;;
        ret
      else
        let method := Method msg in
        match route_lookup h method with
        | Some handler => dispatch handler msg
        | None =>
            exec (memPut msg) ;;
            exec (Warn "OnMessage: invalid method: [%v], no handler" [ArgStr method])
        end
    else if bool_decide (Cmd msg = CmdResponse) then
      if (0 <? MethodLen msg)%nat then
        exec (Warn "OnMessage: invalid response message with method length %v, dropped"
                [ArgInt (Z.of_nat (MethodLen msg))]) ;;
        ret
      else if negb (IsAsync msg) then
        let seq := Seq msg in
        session <- lift (getSession seq) ;;
        match session with
        | Some _ => exec (chan_send seq msg)
        | None =>
            exec (memPut msg) ;;
            exec (Warn "OnMessage: session not exist or expired" [])
        end
      else
        handler <- lift (getAndDeleteAsyncHandler (Seq msg)) ;;
        match handler with
        | Some handler => dispatch handler msg
        | None =>
            exec (memPut msg) ;;
            exec (Warn "OnMessage: async handler not exist or expired" [])
        end
    else
      exec (memPut msg) ;;
      exec (Info "OnMessage: invalid cmd [%v]" [ArgInt (Z.of_N (Byte.to_N (Cmd msg)))])
  ).

End Handler.

Arguments HandlerFunc : clear implicits.
Arguments handler : clear implicits.
Arguments Client : clear implicits.
Arguments World : clear implicits.

(** ** Configuration: hooks, flags, reader wrapper, NewHandler *)

Section Configuration.

Context {U : Type}.

(** [bufio.NewReaderSize(conn, size)] and a connection used directly as an
    [io.Reader] belong to the Go library; how they turn a connection into a
    reader is left open. *)
Variable bufio_NewReaderSize : net_Conn -> Z -> io_Reader.
Variable conn_Reader : net_Conn -> io_Reader.

(** The setters mutate one field of the receiver; the handler after the
    call is returned. *)
Definition BeforeRecv (h : handler U) (bh : option Hook) : handler U :=
  {| batchRecv := batchRecv h; batchSend := batchSend h;
     sendQueueSize := sendQueueSize h;
     beforeRecv := bh; beforeSend := beforeSend h;
     wrapReader := wrapReader h; routes := routes h |}.

Definition BeforeSend (h : handler U) (bh : option Hook) : handler U :=
  {| batchRecv := batchRecv h; batchSend := batchSend h;
     sendQueueSize := sendQueueSize h;
     beforeRecv := beforeRecv h; beforeSend := bh;
     wrapReader := wrapReader h; routes := routes h |}.

Definition BatchRecv (h : handler U) : bool := batchRecv h.

Definition SetBatchRecv (h : handler U) (batch : bool) : handler U :=
  {| batchRecv := batch; batchSend := batchSend h;
     sendQueueSize := sendQueueSize h;
     beforeRecv := beforeRecv h; beforeSend := beforeSend h;
     wrapReader := wrapReader h; routes := routes h |}.

Definition BatchSend (h : handler U) : bool := batchSend h.

Definition SetBatchSend (h : handler U) (batch : bool) : handler U :=
  {| batchRecv := batchRecv h; batchSend := batch;
     sendQueueSize := sendQueueSize h;
     beforeRecv := beforeRecv h; beforeSend := beforeSend h;
     wrapReader := wrapReader h; routes := routes h |}.

(** [WrapReader(conn)]: the wrapper's reader, or the connection itself. *)
Definition WrapReader (h : handler U) (conn : net_Conn) : io_Reader :=
  match wrapReader h with
  | Some wrapper => wrapper conn
  | None => conn_Reader conn
  end.

Definition SetReaderWrapper (h : handler U)
    (wrapper : option (net_Conn -> io_Reader)) : handler U :=
  {| batchRecv := batchRecv h; batchSend := batchSend h;
     sendQueueSize := sendQueueSize h;
     beforeRecv := beforeRecv h; beforeSend := beforeSend h;
     wrapReader := wrapper; routes := routes h |}.

Definition SendQueueSize (h : handler U) : Z := sendQueueSize h.

Definition SetSendQueueSize (h : handler U) (size : Z) : handler U :=
  {| batchRecv := batchRecv h; batchSend := batchSend h;
     sendQueueSize := size;
     beforeRecv := beforeRecv h; beforeSend := beforeSend h;
     wrapReader := wrapReader h; routes := routes h |}.

(** [NewHandler()]: both batch flags set, a send queue of 1024, a buffered
    reader of 1024 bytes; no hooks and a nil route table. *)
Definition NewHandler : handler U :=
  {| batchRecv := true; batchSend := true; sendQueueSize := 1024;
     beforeRecv := None; beforeSend := None;
     wrapReader := Some (fun conn => bufio_NewReaderSize conn 1024);
     routes := None |}.

End Configuration.

(** ** Clone: handler structs and the maps they refer to *)

Section Shared.

Context {U : Type}.
Context `{WF : WireFormat}.

(** A Go map is a reference.  [MapHeap] holds the route tables that exist,
    by location; a [handler] struct as it lies in memory refers to its
    table by location, and [m_routes = None] is the nil map. *)
#[local] Abbreviation MapHeap := (gmap nat (gmap string (HandlerFunc U))).

Record handlerStruct := {
  m_batchRecv : bool;
  m_batchSend : bool;
  m_sendQueueSize : Z;
  m_beforeRecv : option Hook;
  m_beforeSend : option Hook;
  m_wrapReader : option (net_Conn -> io_Reader);
  m_routes : option nat
}.

Definition set_m_routes (s : handlerStruct) (r : option nat) : handlerStruct :=
  {| m_batchRecv := m_batchRecv s; m_batchSend := m_batchSend s;
     m_sendQueueSize := m_sendQueueSize s;
     m_beforeRecv := m_beforeRecv s; m_beforeSend := m_beforeSend s;
     m_wrapReader := m_wrapReader s; m_routes := r |}.

(** What a struct denotes in a heap: the [handler] whose route table is the
    one the struct refers to. *)
Definition view (mem : MapHeap) (s : handlerStruct) : handler U :=
  {| batchRecv := m_batchRecv s; batchSend := m_batchSend s;
     sendQueueSize := m_sendQueueSize s;
     beforeRecv := m_beforeRecv s; beforeSend := m_beforeSend s;
     wrapReader := m_wrapReader s;
     routes := match m_routes s with
               | Some l => Some (mem !!! l)
               | None => None
               end |}.

(** [Clone()]: [var cp = *h; return &cp].  The struct is copied field by
    field; the copy of [routes] is the same reference. *)
Definition Clone (s : handlerStruct) : handlerStruct :=
  {| m_batchRecv := m_batchRecv s; m_batchSend := m_batchSend s;
     m_sendQueueSize := m_sendQueueSize s;
     m_beforeRecv := m_beforeRecv s; m_beforeSend := m_beforeSend s;
     m_wrapReader := m_wrapReader s; m_routes := m_routes s |}.

(** [Handle(method, cb)] on a struct in memory: a nil [routes] is replaced
    by a new, empty map at a fresh location before the checks; the insert
    goes to the map the struct refers to. *)
Definition Handle_mem (mem : MapHeap) (s : handlerStruct) (method : string)
    (cb : HandlerFunc U) : (MapHeap * handlerStruct) * option PanicVal :=
  let '(mem, l) :=
    match m_routes s with
    | None => let l := fresh (dom mem) in (<[l := ∅]> mem, l)
    | Some l => (mem, l)
    end in
  let s := set_m_routes s (Some l) in
  if (MaxMethodLen <? String.length method)%nat then
    ((mem, s),
     Some (Errorf "invalid method length %v(> MaxMethodLen %v)"
             [ArgInt (Z.of_nat (String.length method));
              ArgInt (Z.of_nat MaxMethodLen)]))
  else
    match (mem !!! l) !! method with
    | Some _ =>
        ((mem, s), Some (Errorf "handler exist for method %v " [ArgStr method]))
    | None =>
        ((<[l := <[method := cb]> (mem !!! l)]> mem, s), None)
    end.

End Shared.

Abbreviation MapHeap U := (gmap nat (gmap string (HandlerFunc U))).

(** ** A concrete wire format and concrete frames *)

Module Sample.

(** Little-endian value of a byte string. *)
Fixpoint le_value (bs : list byte) : Z :=
  match bs with
  | [] => 0
  | b :: rest => Z.of_N (Byte.to_N b) + 256 * le_value rest
  end.

Definition byte_at (i : nat) (m : list byte) : byte := nth i m x00.

(** One wire format to run the model on.  The spec lists the fields of the
    head and leaves their layout open; here they take 16 bytes: body length
    (bytes 0-3, little-endian), a reserved byte, the command kind (byte 5),
    the flags (byte 6, bit 0 is the async flag), the method length (byte 7)
    and the sequence number (bytes 8-15, little-endian).  The method name
    opens the body.  [message] rejects a body length above 64 MiB and
    otherwise hands out the head followed by a zeroed body.  The general
    theorems do not depend on this choice. *)
#[export] Instance wire : WireFormat.
Proof.
  refine
    {| HeadLen := 16;
       MaxMethodLen := 127;
       CmdRequest := x01;
       CmdResponse := x02;
       CmdNotify := x03;
       Cmd := byte_at 5;
       MethodLen := fun m => N.to_nat (Byte.to_N (byte_at 7 m));
       Method := fun m =>
         String.string_of_list_byte
           (take (N.to_nat (Byte.to_N (byte_at 7 m))) (drop 16 m));
       IsAsync := fun m => N.testbit (Byte.to_N (byte_at 6 m)) 0;
       Seq := fun m => le_value (take 8 (drop 8 m));
       message := fun hd =>
         let n := le_value (take 4 hd) in
         if 67108864 <? n
         then ([], Some (Errorf "invalid body length: %v" [ArgInt n]))
         else (hd ++ replicate (Z.to_nat n) x00, None) |};
    discriminate.
Defined.

(** The application state of the examples: the names of the handlers that
    ran, the latest first. *)
Definition App : Type := list string.

Definition echo : HandlerFunc App :=
  fun ctx '(conn, app) =>
    ((snd (conn_Write conn (ctxMessage ctx)), "echo" :: app), None).

Definition boom : HandlerFunc App :=
  fun _ '(conn, app) => ((conn, "boom" :: app), Some (ErrExternal "boom")).

Definition conn0 : net_Conn :=
  {| written := []; room := None; werr := ErrExternal "broken pipe" |}.

Definition h0 : handler App :=
  {| batchRecv := true; batchSend := true; sendQueueSize := 1024;
     beforeRecv := None; beforeSend := None; wrapReader := None;
     routes := None |}.

(** [h0] after [Handle("echo", echo)] and [Handle("boom", boom)]. *)
Definition h2 : handler App :=
  fst (Handle (fst (Handle h0 "echo" echo)) "boom" boom).

Definition client0 : Client App :=
  {| Conn := conn0;
     Reader := {| rd_data := []; rd_err := EOF |};
     Head := replicate 16 x00;
     sessionMap := {[ 7 := {| done := [] |} ]};
     asyncHandlerMap := {[ 3 := echo; 4 := boom ]} |}.

Definition w0 : World App :=
  {| w_client := client0; w_app := []; w_trace := [] |}.

(** A frame with the given command, flags, sequence number (below 256),
    method and body. *)
Definition frame (cmd flags seq : byte) (method body : string) : Message :=
  let payload := String.list_byte_of_string method ++ String.list_byte_of_string body in
  let n := N.of_nat (length payload) in
  let len_byte (k : N) : byte :=
    match Byte.of_N (N.land (N.shiftr n (8 * k)) 255) with
    | Some b => b
    | None => x00
    end in
  let mlen : byte :=
    match Byte.of_N (N.of_nat (String.length method)) with
    | Some b => b
    | None => x00
    end in
  [len_byte 0%N; len_byte 1%N; len_byte 2%N; len_byte 3%N; x00; cmd; flags; mlen;
   seq; x00; x00; x00; x00; x00; x00; x00] ++ payload.

Definition req_echo : Message := frame x01 x00 x07 "echo" "hi".
Definition req_boom : Message := frame x01 x00 x08 "boom" "".
Definition req_nomethod : Message := frame x01 x00 x09 "" "hi".
Definition req_unrouted : Message := frame x01 x00 x09 "nope" "".
Definition resp_sync : Message := frame x02 x00 x07 "" "hi".
Definition resp_async : Message := frame x02 x01 x03 "" "hi".
Definition resp_method : Message := frame x02 x00 x07 "echo" "hi".

(** A hook that vetoes, as a rate limiter would. *)
Definition reject : Hook :=
  fun conn => (Some (ErrExternal "rate limited"), conn).

Definition h_reject : handler App :=
  {| batchRecv := true; batchSend := true; sendQueueSize := 1024;
     beforeRecv := Some reject; beforeSend := Some reject; wrapReader := None;
     routes := None |}.

(** A client whose reader holds one whole frame and the first bytes of a
    second one. *)
Definition client_rx : Client App :=
  {| Conn := conn0;
     Reader := {| rd_data := req_echo ++ take 5 resp_sync; rd_err := EOF |};
     Head := replicate 16 x00;
     sessionMap := ∅;
     asyncHandlerMap := ∅ |}.

(** A method name of 128 bytes, one more than [MaxMethodLen]. *)
Definition long_method : string :=
  String.string_of_list_byte (replicate 128 "m"%byte).

(** A frame with a command kind that is none of the three. *)
Definition bad_cmd : Message := frame x09 x00 x01 "" "".

(** A second async Response for the callback 3. *)
Definition resp_async_again : Message := frame x02 x01 x03 "" "late".

(** A client whose reader holds two whole frames and one more byte. *)
Definition client_two : Client App :=
  {| Conn := conn0;
     Reader := {| rd_data := req_echo ++ resp_sync ++ [x01]; rd_err := EOF |};
     Head := replicate 16 x00;
     sessionMap := ∅;
     asyncHandlerMap := ∅ |}.

(** A client whose stream ends right after the head of [req_echo]. *)
Definition client_cut : Client App :=
  {| Conn := conn0;
     Reader := {| rd_data := take 16 req_echo; rd_err := EOF |};
     Head := replicate 16 x00;
     sessionMap := ∅;
     asyncHandlerMap := ∅ |}.

(** A buffered reader that has nothing to deliver. *)
Definition no_input : net_Conn -> Z -> io_Reader :=
  fun _ _ => {| rd_data := []; rd_err := EOF |}.

(** A struct without route table in an empty heap, and one that refers to
    the table at location 0. *)
Definition s_nil : handlerStruct :=
  {| m_batchRecv := true; m_batchSend := true; m_sendQueueSize := 1024;
     m_beforeRecv := None; m_beforeSend := None; m_wrapReader := None;
     m_routes := None |}.

Definition s_tab : handlerStruct :=
  {| m_batchRecv := true; m_batchSend := true; m_sendQueueSize := 1024;
     m_beforeRecv := None; m_beforeSend := None; m_wrapReader := None;
     m_routes := Some 0%nat |}.

Definition mem_tab : MapHeap App := {[ 0%nat := {[ "echo" := echo ]} ]}.

End Sample.

(** ** Reading a trace *)

(** The contexts user code was invoked with, in order. *)
Fixpoint invocations (tr : list Event) : list Context :=
  match tr with
  | [] => []
  | EvInvoke ctx :: rest => ctx :: invocations rest
  | _ :: rest => invocations rest
  end.

(** The sequence numbers looked up in the session table or the async
    table, in order. *)
Fixpoint correlations (tr : list Event) : list Z :=
  match tr with
  | [] => []
  | EvGetSession seq :: rest => seq :: correlations rest
  | EvGetAndDeleteAsyncHandler seq :: rest => seq :: correlations rest
  | _ :: rest => correlations rest
  end.

(** How often [m] was given up by the dispatcher: handed back to the pool
    or sent to a session. *)
Fixpoint settlements (m : Message) (tr : list Event) : nat :=
  match tr with
  | [] => 0%nat
  | EvMemPut m' :: rest =>
      ((if bool_decide (m' = m) then 1 else 0) + settlements m rest)%nat
  | EvChanSend _ m' :: rest =>
      ((if bool_decide (m' = m) then 1 else 0) + settlements m rest)%nat
  | _ :: rest => settlements m rest
  end.

(** Contexts taken from the pool minus contexts handed back. *)
Fixpoint ctx_balance (tr : list Event) : Z :=
  match tr with
  | [] => 0
  | EvCtxGet _ :: rest => 1 + ctx_balance rest
  | EvCtxPut _ :: rest => ctx_balance rest - 1
  | _ :: rest => ctx_balance rest
  end.

(** What the panic guard adds to the trace for the outcome [p] of the user
    code. *)
Definition recovered (p : option PanicVal) : list Event :=
  match p with
  | Some v => [EvRecovered v]
  | None => []
  end.

(** [hook_passed hook conn conn']: the optional hook lets the operation on
    [conn] go ahead, on the connection [conn'] it leaves: there is no hook,
    or the hook returns nil. *)
Inductive hook_passed (hook : option Hook) (conn : net_Conn) : net_Conn -> Prop :=
| hook_absent :
    hook = None -> hook_passed hook conn conn
| hook_accepts f conn' :
    hook = Some f -> f conn = (None, conn') -> hook_passed hook conn conn'.

(** * Properties *)

Section Properties.

Context {U : Type}.
Context `{WF : WireFormat}.

Implicit Types (h : handler U) (w : World U) (c : Client U).
Implicit Types (msg : Message) (cb : HandlerFunc U).

(** The command kinds that name a method. *)
Definition is_call (msg : Message) : Prop :=
  Cmd msg = CmdRequest \/ Cmd msg = CmdNotify.

(** [dispatched h w msg cb w1]: in the world [w], [OnMessage h msg] reaches
    the guarded invocation of [cb], which starts in the world [w1]: either
    [cb] is the handler registered for the method of a Request or Notify,
    or it is the callback taken from the async table for an async-flagged
    Response. *)
Inductive dispatched h w msg : HandlerFunc U -> World U -> Prop :=
| dispatched_route cb :
    is_call msg ->
    MethodLen msg <> 0%nat ->
    route_lookup h (Method msg) = Some cb ->
    dispatched h w msg cb w
| dispatched_callback cb :
    Cmd msg = CmdResponse ->
    MethodLen msg = 0%nat ->
    IsAsync msg = true ->
    asyncHandlerMap (w_client w) !! Seq msg = Some cb ->
    dispatched h w msg cb (getAndDeleteAsyncHandler (Seq msg) w).2.

Lemma is_call_case msg :
  is_call msg ->
  bool_decide (Cmd msg = CmdRequest) || bool_decide (Cmd msg = CmdNotify) = true.
Proof.
  intros [E | E]; rewrite E.
  - by rewrite bool_decide_eq_true_2.
  - rewrite (bool_decide_eq_true_2 (CmdNotify = CmdNotify)) by done.
    apply orb_true_r.
Qed.

Lemma response_case msg :
  Cmd msg = CmdResponse ->
  bool_decide (Cmd msg = CmdRequest) || bool_decide (Cmd msg = CmdNotify) = false
  /\ bool_decide (Cmd msg = CmdResponse) = true.
Proof.
  intros E. rewrite E. split.
  - rewrite !bool_decide_eq_false_2; [done | |].
    + intros E'. by apply CmdNotify_not_Response.
    + intros E'. by apply CmdRequest_not_Response.
  - by rewrite bool_decide_eq_true_2.
Qed.

Lemma invocations_app (tr1 tr2 : list Event) :
  invocations (tr1 ++ tr2) = invocations tr1 ++ invocations tr2.
Proof.
  induction tr1 as [| e tr1 IH]; [done |].
  destruct e; simpl; by rewrite IH.
Qed.

Lemma correlations_app (tr1 tr2 : list Event) :
  correlations (tr1 ++ tr2) = correlations tr1 ++ correlations tr2.
Proof.
  induction tr1 as [| e tr1 IH]; [done |].
  destruct e; simpl; by rewrite IH.
Qed.

Lemma settlements_app msg (tr1 tr2 : list Event) :
  settlements msg (tr1 ++ tr2) = (settlements msg tr1 + settlements msg tr2)%nat.
Proof.
  induction tr1 as [| e tr1 IH]; [done |].
  destruct e; simpl; rewrite IH; lia.
Qed.

(** C4: a Request or Notify whose method length is 0 is dropped with the
    warning about the zero method length; [OnMessage] returns normally, no
    user code is invoked, and client, application state and the rest of the
    trace are as before. *)
Theorem OnMessage_zero_method_dropped h msg w :
  is_call msg ->
  MethodLen msg = 0%nat ->
  let r := OnMessage h msg w in
  r = (Warn "OnMessage: invalid request message with 0 method length, dropped" [] w,
       None)
  /\ invocations (w_trace r.1) = invocations (w_trace w)
  /\ w_app r.1 = w_app w
  /\ w_client r.1 = w_client w.
Proof.
  intros Hcall Hlen r.
  assert (Hr : r = (Warn "OnMessage: invalid request message with 0 method length, dropped" [] w, None)).
  { subst r. unfold OnMessage. rewrite (is_call_case _ Hcall), Hlen. reflexivity. }
  rewrite Hr. simpl. split; [done |]. split; [| done].
  rewrite invocations_app. simpl. by rewrite app_nil_r.
Qed.

(** C5: a Response whose method length is not 0 is dropped with the warning
    that names the length; neither correlation table is consulted or
    changed, and no user code runs. *)
Theorem OnMessage_response_with_method_dropped h msg w :
  Cmd msg = CmdResponse ->
  MethodLen msg <> 0%nat ->
  let r := OnMessage h msg w in
  r = (Warn "OnMessage: invalid response message with method length %v, dropped"
         [ArgInt (Z.of_nat (MethodLen msg))] w, None)
  /\ correlations (w_trace r.1) = correlations (w_trace w)
  /\ invocations (w_trace r.1) = invocations (w_trace w)
  /\ sessionMap (w_client r.1) = sessionMap (w_client w)
  /\ asyncHandlerMap (w_client r.1) = asyncHandlerMap (w_client w).
Proof.
  intros Hcmd Hlen r.
  assert (Hr : r = (Warn "OnMessage: invalid response message with method length %v, dropped"
                      [ArgInt (Z.of_nat (MethodLen msg))] w, None)).
  { subst r. unfold OnMessage.
    destruct (response_case _ Hcmd) as [-> ->].
    assert (Hpos : (0 <? MethodLen msg)%nat = true) by (apply Nat.ltb_lt; lia).
    simpl. rewrite Hpos. reflexivity. }
  rewrite Hr. simpl. split; [done |].
  rewrite correlations_app, invocations_app. simpl. by rewrite !app_nil_r.
Qed.

(** C7: a Request or Notify that names a method without a registered
    handler: the message goes back to the pool, the warning is logged, and
    that is all that happens: no user code runs and nothing is written to
    the connection. *)
Theorem OnMessage_unrouted_released h msg w :
  is_call msg ->
  MethodLen msg <> 0%nat ->
  route_lookup h (Method msg) = None ->
  let r := OnMessage h msg w in
  r = (Warn "OnMessage: invalid method: [%v], no handler" [ArgStr (Method msg)]
         (memPut msg w), None)
  /\ w_trace r.1 =
       w_trace w ++
         [EvMemPut msg;
          EvLog LWarn "OnMessage: invalid method: [%v], no handler" [ArgStr (Method msg)]]
  /\ invocations (w_trace r.1) = invocations (w_trace w)
  /\ written (Conn (w_client r.1)) = written (Conn (w_client w))
  /\ w_client r.1 = w_client w
  /\ w_app r.1 = w_app w.
Proof.
  intros Hcall Hlen Hroute r.
  assert (Hr : r = (Warn "OnMessage: invalid method: [%v], no handler"
                      [ArgStr (Method msg)] (memPut msg w), None)).
  { subst r. unfold OnMessage. rewrite (is_call_case _ Hcall).
    assert (Hz : (MethodLen msg =? 0)%nat = false) by (by apply Nat.eqb_neq).
    rewrite Hz, Hroute. reflexivity. }
  rewrite Hr. simpl. split; [done |]. split; [by rewrite <- app_assoc |].
  split; [| done].
  rewrite !invocations_app. simpl. by rewrite !app_nil_r.
Qed.

(** A frame that starts with a call that cannot panic. *)
Lemma func_bind_lift {A} (f : World U -> A * World U) (k : A -> Go unit) w :
  func (bind (lift f) k) w = func (k (f w).1) (f w).2.
Proof.
  unfold func, bind, lift. simpl. by destruct (f w) as [a w'].
Qed.

Lemma func_bind_exec (f : World U -> World U) (k : unit -> Go unit) w :
  func (bind (exec f) k) w = func (k tt) (f w).
Proof. unfold exec. by rewrite func_bind_lift. Qed.

Lemma func_exec (f : World U -> World U) w :
  func (exec f) w = (f w, None).
Proof. reflexivity. Qed.

(** The guarded invocation as a whole frame: whatever the user code does,
    the guard runs first, then context and message are released, and the
    frame returns normally. *)
Lemma func_dispatch cb msg w :
  let ctx := {| ctxMessage := msg |} in
  let out := cb ctx (Conn (w_client w), w_app w) in
  func (dispatch cb msg) w =
    ({| w_client := set_Conn (w_client w) out.1.1;
        w_app := out.1.2;
        w_trace :=
          w_trace w ++ [EvCtxGet ctx; EvInvoke ctx] ++ recovered out.2
            ++ [EvCtxPut ctx; EvMemPut msg] |},
     None).
Proof.
  intros ctx out. subst out.
  unfold func, dispatch, bind, lift, defer, call, invoke, ctxGet. simpl.
  fold ctx.
  destruct (cb ctx (Conn (w_client w), w_app w)) as [[conn app] [v |]];
    simpl; unfold closure, memPut, ctxPut, emit; simpl;
    repeat rewrite <- app_assoc; reflexivity.
Qed.

(** C2: when a Request or Notify reaches its registered handler, or an
    async-flagged Response reaches the callback taken for it, the context is
    taken, the user code is invoked, and then, whether it returned or
    panicked, the panic is recovered by the guard, [ctxPut] and [memPut]
    run, in this order, and no panic leaves [OnMessage]. *)
Theorem OnMessage_guarded_release h msg w cb w1 :
  dispatched h w msg cb w1 ->
  let ctx := {| ctxMessage := msg |} in
  let out := cb ctx (Conn (w_client w1), w_app w1) in
  OnMessage h msg w =
    ({| w_client := set_Conn (w_client w1) out.1.1;
        w_app := out.1.2;
        w_trace :=
          w_trace w1 ++ [EvCtxGet ctx; EvInvoke ctx] ++ recovered out.2
            ++ [EvCtxPut ctx; EvMemPut msg] |},
     None).
Proof.
  intros Hd ctx out. subst ctx out.
  rewrite <- func_dispatch.
  destruct Hd as [cb Hcall Hlen Hroute | cb Hcmd Hlen Hasync Hcb].
  - unfold OnMessage. rewrite (is_call_case _ Hcall).
    assert (Hz : (MethodLen msg =? 0)%nat = false) by (by apply Nat.eqb_neq).
    by rewrite Hz, Hroute.
  - unfold OnMessage.
    destruct (response_case _ Hcmd) as [-> ->].
    rewrite Hlen, Hasync. simpl.
    rewrite func_bind_lift.
    assert (Htake : (getAndDeleteAsyncHandler (Seq msg) w).1 = Some cb) by exact Hcb.
    by rewrite Htake.
Qed.

(** C6: a Response with method length 0.  Not async and no session under
    its sequence number: the message is released and the warning logged, no
    panic.  Not async and a session: the message is sent to that session
    and not released.  Async and a callback: the callback is taken out of
    the table and invoked under the guard, after which context and message
    are released.  Async and no callback: released and logged. *)
Theorem OnMessage_response_resolved h msg w :
  Cmd msg = CmdResponse ->
  MethodLen msg = 0%nat ->
  let seq := Seq msg in
  let r := OnMessage h msg w in
  (IsAsync msg = false -> sessionMap (w_client w) !! seq = None ->
     r.2 = None
     /\ w_trace r.1 =
          w_trace w ++
            [EvGetSession seq; EvMemPut msg;
             EvLog LWarn "OnMessage: session not exist or expired" []]
     /\ w_client r.1 = w_client w
     /\ w_app r.1 = w_app w)
  /\ (forall s, IsAsync msg = false -> sessionMap (w_client w) !! seq = Some s ->
     r.2 = None
     /\ w_trace r.1 = w_trace w ++ [EvGetSession seq; EvChanSend seq msg]
     /\ sessionMap (w_client r.1) !! seq = Some {| done := done s ++ [msg] |}
     /\ w_app r.1 = w_app w)
  /\ (forall cb, IsAsync msg = true -> asyncHandlerMap (w_client w) !! seq = Some cb ->
     let ctx := {| ctxMessage := msg |} in
     let out := cb ctx (Conn (w_client w), w_app w) in
     r.2 = None
     /\ w_trace r.1 =
          w_trace w ++
            [EvGetAndDeleteAsyncHandler seq; EvCtxGet ctx; EvInvoke ctx]
            ++ recovered out.2 ++ [EvCtxPut ctx; EvMemPut msg]
     /\ asyncHandlerMap (w_client r.1) = delete seq (asyncHandlerMap (w_client w))
     /\ w_app r.1 = out.1.2)
  /\ (IsAsync msg = true -> asyncHandlerMap (w_client w) !! seq = None ->
     r.2 = None
     /\ w_trace r.1 =
          w_trace w ++
            [EvGetAndDeleteAsyncHandler seq; EvMemPut msg;
             EvLog LWarn "OnMessage: async handler not exist or expired" []]
     /\ asyncHandlerMap (w_client r.1) = asyncHandlerMap (w_client w)
     /\ w_app r.1 = w_app w).
Proof.
  intros Hcmd Hlen seq r.
  assert (Hr : r =
    func (if negb (IsAsync msg)
          then bind (lift (getSession seq))
                 (fun session =>
                    match session with
                    | Some _ => exec (chan_send seq msg)
                    | None =>
                        bind (exec (memPut msg))
                          (fun _ => exec (Warn "OnMessage: session not exist or expired" []))
                    end)
          else bind (lift (getAndDeleteAsyncHandler seq))
                 (fun handler =>
                    match handler with
                    | Some handler => dispatch handler msg
                    | None =>
                        bind (exec (memPut msg))
                          (fun _ => exec (Warn "OnMessage: async handler not exist or expired" []))
                    end)) w).
  { subst r. unfold OnMessage.
    destruct (response_case _ Hcmd) as [-> ->]. by rewrite Hlen. }
  split; [| split; [| split]].
  - intros Hasync Hlook. rewrite Hr, Hasync. simpl negb. cbv iota.
    rewrite func_bind_lift.
    assert (E : (getSession seq w).1 = None) by exact Hlook.
    rewrite E. simpl. by rewrite <- !app_assoc.
  - intros s Hasync Hlook. rewrite Hr, Hasync. simpl negb. cbv iota.
    rewrite func_bind_lift.
    assert (E : (getSession seq w).1 = Some s) by exact Hlook.
    rewrite E. simpl. rewrite <- !app_assoc, lookup_alter_eq, Hlook. done.
  - intros cb Hasync Hlook ctx out. rewrite Hr, Hasync. simpl negb. cbv iota.
    rewrite func_bind_lift.
    assert (E : (getAndDeleteAsyncHandler seq w).1 = Some cb) by exact Hlook.
    rewrite E, func_dispatch. simpl. by rewrite <- !app_assoc.
  - intros Hasync Hlook. rewrite Hr, Hasync. simpl negb. cbv iota.
    rewrite func_bind_lift.
    assert (E : (getAndDeleteAsyncHandler seq w).1 = None) by exact Hlook.
    rewrite E. simpl. rewrite <- !app_assoc, (delete_id _ _ Hlook). done.
Qed.

(** C8: [Handle] panics at once for a method name longer than
    [MaxMethodLen] and for a method that is already registered, leaving the
    registered handlers as they were; otherwise it returns normally with
    the handler stored under the method name and every other entry kept. *)
Theorem Handle_fail_fast h method cb :
  ((MaxMethodLen < String.length method)%nat ->
     (Handle h method cb).2 =
       Some (Errorf "invalid method length %v(> MaxMethodLen %v)"
               [ArgInt (Z.of_nat (String.length method));
                ArgInt (Z.of_nat MaxMethodLen)])
     /\ forall m, route_lookup (Handle h method cb).1 m = route_lookup h m)
  /\ (forall old,
     (String.length method <= MaxMethodLen)%nat ->
     route_lookup h method = Some old ->
     (Handle h method cb).2 =
       Some (Errorf "handler exist for method %v " [ArgStr method])
     /\ forall m, route_lookup (Handle h method cb).1 m = route_lookup h m)
  /\ ((String.length method <= MaxMethodLen)%nat ->
     route_lookup h method = None ->
     (Handle h method cb).2 = None
     /\ route_lookup (Handle h method cb).1 method = Some cb
     /\ forall m, m <> method ->
          route_lookup (Handle h method cb).1 m = route_lookup h m).
Proof.
  unfold Handle, route_lookup.
  split; [| split].
  - intros Hlong.
    assert (E : (MaxMethodLen <? String.length method)%nat = true)
      by (by apply Nat.ltb_lt).
    rewrite E. simpl. split; [done |].
    intros m. destruct (routes h); [done | by rewrite lookup_empty].
  - intros old Hshort Hold.
    assert (E : (MaxMethodLen <? String.length method)%nat = false)
      by (apply Nat.ltb_ge; lia).
    rewrite E.
    destruct (routes h) as [r |]; [| done].
    rewrite Hold. done.
  - intros Hshort Hnew.
    assert (E : (MaxMethodLen <? String.length method)%nat = false)
      by (apply Nat.ltb_ge; lia).
    rewrite E.
    destruct (routes h) as [r |].
    + rewrite Hnew. simpl. rewrite lookup_insert_eq.
      split; [done |]. split; [done |].
      intros m Hm. by rewrite lookup_insert_ne.
    + rewrite lookup_empty. simpl. rewrite lookup_insert_eq.
      split; [done |]. split; [done |].
      intros m Hm. by rewrite lookup_insert_ne, lookup_empty.
Qed.

(** [OnMessage] reads the route table in one place only: under the method
    of a Request or Notify whose method length is not 0. *)
Lemma OnMessage_route_only h h' msg w :
  (is_call msg -> MethodLen msg <> 0%nat ->
   route_lookup h (Method msg) = route_lookup h' (Method msg)) ->
  OnMessage h msg w = OnMessage h' msg w.
Proof.
  intros Hsame. unfold OnMessage.
  destruct (bool_decide (Cmd msg = CmdRequest) || bool_decide (Cmd msg = CmdNotify))
    eqn:Hc; [| done].
  destruct (MethodLen msg =? 0)%nat eqn:Hz; [done |].
  rewrite Hsame; [done | | by apply Nat.eqb_neq].
  apply orb_true_iff in Hc as [Hc | Hc]; apply bool_decide_eq_true in Hc;
    [by left | by right].
Qed.

(** C10: [Handle] accepts the empty method name: its length 0 passes the
    [MaxMethodLen] check and, given that the name is not yet registered,
    the handler is stored under it; yet [OnMessage] never gets to it: a Request or Notify with method length 0 is dropped without an
    invocation, and for every message whose method has the length its head
    announces, [OnMessage] does the same with and without the entry. *)
Theorem Handle_empty_method_unreachable h cb :
  route_lookup h "" = None ->
  let h' := (Handle h "" cb).1 in
  (MaxMethodLen <? String.length "")%nat = false
  /\ (Handle h "" cb).2 = None
  /\ route_lookup h' "" = Some cb
  /\ (forall msg w,
        is_call msg -> MethodLen msg = 0%nat ->
        invocations (w_trace (OnMessage h' msg w).1) = invocations (w_trace w))
  /\ (forall msg w,
        String.length (Method msg) = MethodLen msg ->
        OnMessage h' msg w =
        OnMessage (set_routes h' (delete "" <$> routes h')) msg w).
Proof.
  intros Hnew h'.
  assert (HH : (Handle h "" cb).2 = None /\ route_lookup h' "" = Some cb).
  { subst h'. unfold Handle, route_lookup in *. simpl.
    destruct (routes h) as [r |].
    - rewrite Hnew. simpl. by rewrite lookup_insert_eq.
    - rewrite lookup_empty. simpl. by rewrite lookup_insert_eq. }
  destruct HH as [H1 H2]. split; [done |]. split; [done |]. split; [done |]. split.
  - intros msg w Hcall Hlen. unfold OnMessage.
    rewrite (is_call_case _ Hcall), Hlen. simpl.
    rewrite invocations_app. simpl. by rewrite app_nil_r.
  - intros msg w Hwf. apply OnMessage_route_only.
    intros _ Hlen. unfold route_lookup. simpl.
    destruct (routes h') as [r |]; [| done]. simpl.
    rewrite lookup_delete_ne; [done |].
    intros E. rewrite <- E in Hwf. simpl in Hwf. lia.
Qed.

Lemma set_Conn_same c : set_Conn c (Conn c) = c.
Proof. by destruct c. Qed.

(** [io.ReadFull] with enough bytes at hand takes exactly [len(buf)] of
    them. *)
Lemma ReadFull_enough (r : io_Reader) (buf : list byte) :
  (length buf <= length (rd_data r))%nat ->
  ReadFull r buf =
    ((take (length buf) (rd_data r), Z.of_nat (length buf), None),
     {| rd_data := drop (length buf) (rd_data r); rd_err := rd_err r |}).
Proof.
  intros Hlen. unfold ReadFull.
  assert (E : (length buf <=? length (rd_data r))%nat = true)
    by (by apply Nat.leb_le).
  by rewrite E.
Qed.

(** [io.ReadFull] on a stream that ends inside the buffer fails and drains
    the stream. *)
Lemma ReadFull_short (r : io_Reader) (buf : list byte) :
  (length (rd_data r) < length buf)%nat ->
  ReadFull r buf =
    ((rd_data r ++ drop (length (rd_data r)) buf,
      Z.of_nat (length (rd_data r)), Some (short_read_error r)),
     {| rd_data := []; rd_err := rd_err r |}).
Proof.
  intros Hlen. unfold ReadFull.
  assert (E : (length buf <=? length (rd_data r))%nat = false)
    by (apply Nat.leb_gt; lia).
  by rewrite E.
Qed.

(** C3: [Recv] step by step.  A pre-receive hook that fails ends the call
    with its error; reader and head buffer are untouched.  Otherwise
    [HeadLen] bytes are read; a shorter stream yields the short-read error
    and no message.  The head is decoded by [message]; its error, if any,
    is returned.  A total length above [HeadLen] makes [Recv] read exactly
    the missing bytes behind the head, in the same buffer; a stream that
    ends before yields the short-read error. *)
Theorem Recv_algorithm h c :
  length (Head c) = HeadLen ->
  let data := rd_data (Reader c) in
  let rerr := rd_err (Reader c) in
  (forall hook e conn,
     beforeRecv h = Some hook -> hook (Conn c) = (Some e, conn) ->
     Recv h c = (([], Some e), set_Conn c conn))
  /\ (forall conn1,
     hook_passed (beforeRecv h) (Conn c) conn1 ->
     let c1 := set_Conn c conn1 in
     ((length data < HeadLen)%nat ->
        Recv h c =
          (([], Some (short_read_error (Reader c))),
           set_Head (set_Reader c1 {| rd_data := []; rd_err := rerr |})
             (data ++ drop (length data) (Head c))))
     /\ ((HeadLen <= length data)%nat ->
        let head := take HeadLen data in
        let rest := drop HeadLen data in
        let m := (message head).1 in
        let c2 :=
          set_Head (set_Reader c1 {| rd_data := rest; rd_err := rerr |}) head in
        (forall e,
           (message head).2 = Some e -> Recv h c = ((m, Some e), c2))
        /\ ((message head).2 = None -> (length m <= HeadLen)%nat ->
            Recv h c = ((m, None), c2))
        /\ ((message head).2 = None -> (HeadLen < length m)%nat ->
            (length m - HeadLen <= length rest)%nat ->
            Recv h c =
              ((take HeadLen m ++ take (length m - HeadLen) rest, None),
               set_Reader c2
                 {| rd_data := drop (length m - HeadLen) rest; rd_err := rerr |}))
        /\ ((message head).2 = None -> (HeadLen < length m)%nat ->
            (length rest < length m - HeadLen)%nat ->
            Recv h c =
              ((take HeadLen m ++ rest ++ drop (HeadLen + length rest) m,
                Some (short_read_error {| rd_data := rest; rd_err := rerr |})),
               set_Reader c2 {| rd_data := []; rd_err := rerr |})))).
Proof.
  intros Hhead data rerr. split.
  - intros hook e conn Hhook Hrej. unfold Recv. by rewrite Hhook, Hrej.
  - intros conn1 Hpass c1.
    assert (Hstart : Recv h c =
      let '((head, _, err), rd) := ReadFull (Reader c1) (Head c1) in
      let c := set_Head (set_Reader c1 rd) head in
      match err with
      | Some e => (([], Some e), c)
      | None =>
          let '(msg, err) := message (Head c) in
          if bool_decide (err = None) && (HeadLen <? length msg)%nat then
            let '((body, _, err), rd) := ReadFull (Reader c) (drop HeadLen msg) in
            ((take HeadLen msg ++ body, err), set_Reader c rd)
          else ((msg, err), c)
      end).
    { unfold Recv. subst c1.
      destruct Hpass as [Hnone | f conn' Hsome Hok].
      - rewrite Hnone. by rewrite set_Conn_same.
      - by rewrite Hsome, Hok. }
    rewrite Hstart. clear Hstart. simpl Reader. simpl Head.
    fold data. split.
    + intros Hshort.
      by rewrite ReadFull_short by (fold data; lia).
    + intros Hfull head rest m c2.
      rewrite ReadFull_enough by (fold data; lia).
      rewrite Hhead. fold data rerr head rest. simpl Head. fold c1 c2.
      subst m. destruct (message head) as [m err] eqn:Hm. simpl.
      split; [| split; [| split]].
      * intros e ->. done.
      * intros -> Hle.
        assert (E : (HeadLen <? length m)%nat = false) by (apply Nat.ltb_ge; lia).
        by rewrite E.
      * intros -> Hgt Hbody.
        assert (E : (HeadLen <? length m)%nat = true) by (by apply Nat.ltb_lt).
        rewrite E. simpl.
        rewrite ReadFull_enough by (rewrite length_drop; simpl; lia).
        rewrite length_drop. done.
      * intros -> Hgt Hbody.
        assert (E : (HeadLen <? length m)%nat = true) by (by apply Nat.ltb_lt).
        rewrite E. simpl.
        rewrite ReadFull_short by (rewrite length_drop; simpl; lia).
        simpl. by rewrite drop_drop.
Qed.

(** A healthy connection takes every buffer, in the order supplied. *)
Lemma Buffers_WriteTo_healthy (buffers : list (list byte)) (conn : net_Conn) (n : Z) :
  room conn = None ->
  Buffers_WriteTo buffers conn n =
    ((n + Z.of_nat (length (concat buffers)), None),
     {| written := written conn ++ concat buffers;
        room := None; werr := werr conn |}).
Proof.
  revert conn n.
  induction buffers as [| b rest IH]; intros conn n Hroom.
  - simpl. rewrite Z.add_0_r, app_nil_r. destruct conn; simpl in *. by subst.
  - simpl. unfold conn_Write. rewrite Hroom.
    rewrite IH by done. simpl.
    rewrite length_app, <- app_assoc. do 2 f_equal. lia.
Qed.

(** C9: [Send] and [SendN] with the pre-send hook.  A hook that fails
    vetoes the write: the result is [-1] with the hook's error, and the
    connection is as the hook left it.  With no hook, or a hook returning
    nil, the call is [conn.Write] of the message, respectively the writes of
    the buffers in order; on a healthy connection all bytes arrive, in that
    order. *)
Theorem Send_hook_veto h conn m (buffers : list (list byte)) :
  (forall hook e conn',
     beforeSend h = Some hook -> hook conn = (Some e, conn') ->
     Send h conn m = ((-1, Some e), conn')
     /\ SendN h conn buffers = ((-1, Some e), conn'))
  /\ (forall conn1,
     hook_passed (beforeSend h) conn conn1 ->
     Send h conn m = conn_Write conn1 m
     /\ SendN h conn buffers = Buffers_WriteTo buffers conn1 0
     /\ (room conn1 = None ->
         (Send h conn m).1 = (Z.of_nat (length m), None)
         /\ written (Send h conn m).2 = written conn1 ++ m
         /\ (SendN h conn buffers).1 = (Z.of_nat (length (concat buffers)), None)
         /\ written (SendN h conn buffers).2 = written conn1 ++ concat buffers)).
Proof.
  split.
  - intros hook e conn' Hhook Hrej. unfold Send, SendN.
    by rewrite Hhook, Hrej.
  - intros conn1 Hpass.
    assert (Hs : Send h conn m = conn_Write conn1 m).
    { unfold Send. destruct Hpass as [-> | f conn' -> Hok]; [done |].
      by rewrite Hok. }
    assert (Hn : SendN h conn buffers = Buffers_WriteTo buffers conn1 0).
    { unfold SendN. destruct Hpass as [-> | f conn' -> Hok]; [done |].
      by rewrite Hok. }
    split; [done |]. split; [done |].
    intros Hroom. rewrite Hs, Hn.
    rewrite Buffers_WriteTo_healthy by done.
    unfold conn_Write. rewrite Hroom. done.
Qed.

(** X21: outside the two early returns, [OnMessage] gives the message up
    exactly once: to the pool or to the waiting session. *)
Lemma OnMessage_settles_once h msg w :
  ~ (is_call msg /\ MethodLen msg = 0%nat) ->
  ~ (Cmd msg = CmdResponse /\ MethodLen msg <> 0%nat) ->
  settlements msg (w_trace (OnMessage h msg w).1) =
    S (settlements msg (w_trace w)).
Proof.
  intros Hreq Hresp. unfold OnMessage.
  assert (Hput : forall tr, settlements msg (tr ++ [EvMemPut msg]) = S (settlements msg tr)).
  { intros tr. rewrite settlements_app. cbn [settlements].
    rewrite bool_decide_eq_true_2 by done. lia. }
  assert (Hsend : forall seq tr,
    settlements msg (tr ++ [EvChanSend seq msg]) = S (settlements msg tr)).
  { intros seq tr. rewrite settlements_app. cbn [settlements].
    rewrite bool_decide_eq_true_2 by done. lia. }
  assert (Hdisp : forall cb w',
    settlements msg (w_trace (func (dispatch cb msg) w').1) =
      S (settlements msg (w_trace w'))).
  { intros cb w'. rewrite func_dispatch. cbn [fst w_trace].
    rewrite !settlements_app. cbn [settlements].
    rewrite bool_decide_eq_true_2 by done.
    destruct (cb _ _).2; cbn [recovered settlements]; lia. }
  destruct (bool_decide (Cmd msg = CmdRequest) || bool_decide (Cmd msg = CmdNotify))
    eqn:Hc.
  - assert (Hcall : is_call msg).
    { apply orb_true_iff in Hc as [Hc | Hc]; apply bool_decide_eq_true in Hc;
        [by left | by right]. }
    destruct (MethodLen msg =? 0)%nat eqn:Hz.
    { apply Nat.eqb_eq in Hz. tauto. }
    destruct (route_lookup h (Method msg)) as [cb |]; [apply Hdisp |].
    rewrite func_bind_exec, func_exec. cbn [fst Warn memPut emit w_trace].
    rewrite settlements_app, Hput. cbn [settlements]. lia.
  - destruct (bool_decide (Cmd msg = CmdResponse)) eqn:Hr.
    + apply bool_decide_eq_true in Hr.
      destruct (0 <? MethodLen msg)%nat eqn:Hz.
      { apply Nat.ltb_lt in Hz. exfalso. apply Hresp. split; [done | lia]. }
      destruct (IsAsync msg); simpl negb; cbv iota; rewrite func_bind_lift.
      * unfold getAndDeleteAsyncHandler at 1. cbn [fst snd].
        destruct (asyncHandlerMap (w_client w) !! Seq msg) as [cb |].
        -- rewrite Hdisp. cbn [getAndDeleteAsyncHandler snd emit w_trace set_client].
           rewrite settlements_app. cbn [settlements]. lia.
        -- rewrite func_bind_exec, func_exec.
           cbn [fst snd Warn memPut emit w_trace getAndDeleteAsyncHandler set_client].
           rewrite settlements_app, Hput, settlements_app. cbn [settlements]. lia.
      * unfold getSession at 1. cbn [fst snd].
        destruct (sessionMap (w_client w) !! Seq msg) as [s |].
        -- rewrite func_exec.
           cbn [fst snd chan_send emit w_trace getSession set_client].
           rewrite Hsend, settlements_app. cbn [settlements]. lia.
        -- rewrite func_bind_exec, func_exec.
           cbn [fst snd Warn memPut emit w_trace getSession set_client].
           rewrite settlements_app, Hput, settlements_app. cbn [settlements]. lia.
    + rewrite func_bind_exec, func_exec. cbn [fst Warn Info memPut emit w_trace].
      rewrite settlements_app, Hput. cbn [settlements]. lia.
Qed.

End Properties.

(** * Further properties of the dispatcher *)

Section Dispatcher.

Context {U : Type}.
Context `{WF : WireFormat}.

Implicit Types (h : handler U) (w : World U) (c : Client U).
Implicit Types (msg : Message) (cb : HandlerFunc U).

(** The eight ways through [OnMessage]. *)
Lemma OnMessage_paths h msg w :
  (is_call msg /\ MethodLen msg = 0%nat
   /\ OnMessage h msg w =
        (Warn "OnMessage: invalid request message with 0 method length, dropped" [] w,
         None))
  \/ (is_call msg /\ MethodLen msg <> 0%nat
      /\ route_lookup h (Method msg) = None
      /\ OnMessage h msg w =
           (Warn "OnMessage: invalid method: [%v], no handler" [ArgStr (Method msg)]
              (memPut msg w), None))
  \/ (exists cb w1,
        dispatched h w msg cb w1
        /\ OnMessage h msg w = func (dispatch cb msg) w1)
  \/ (Cmd msg = CmdResponse /\ MethodLen msg <> 0%nat
      /\ OnMessage h msg w =
           (Warn "OnMessage: invalid response message with method length %v, dropped"
              [ArgInt (Z.of_nat (MethodLen msg))] w, None))
  \/ (Cmd msg = CmdResponse /\ MethodLen msg = 0%nat /\ IsAsync msg = false
      /\ (exists s, sessionMap (w_client w) !! Seq msg = Some s)
      /\ OnMessage h msg w =
           (chan_send (Seq msg) msg (getSession (Seq msg) w).2, None))
  \/ (Cmd msg = CmdResponse /\ MethodLen msg = 0%nat /\ IsAsync msg = false
      /\ sessionMap (w_client w) !! Seq msg = None
      /\ OnMessage h msg w =
           (Warn "OnMessage: session not exist or expired" []
              (memPut msg (getSession (Seq msg) w).2), None))
  \/ (Cmd msg = CmdResponse /\ MethodLen msg = 0%nat /\ IsAsync msg = true
      /\ asyncHandlerMap (w_client w) !! Seq msg = None
      /\ OnMessage h msg w =
           (Warn "OnMessage: async handler not exist or expired" []
              (memPut msg (getAndDeleteAsyncHandler (Seq msg) w).2), None))
  \/ (~ is_call msg /\ Cmd msg <> CmdResponse
      /\ OnMessage h msg w =
           (Info "OnMessage: invalid cmd [%v]"
              [ArgInt (Z.of_N (Byte.to_N (Cmd msg)))] (memPut msg w), None)).
Proof.
  unfold OnMessage.
  destruct (bool_decide (Cmd msg = CmdRequest) || bool_decide (Cmd msg = CmdNotify))
    eqn:Hc.
  - assert (Hcall : is_call msg).
    { apply orb_true_iff in Hc as [Hc | Hc]; apply bool_decide_eq_true in Hc;
        [by left | by right]. }
    destruct (MethodLen msg =? 0)%nat eqn:Hz.
    + apply Nat.eqb_eq in Hz. by left.
    + apply Nat.eqb_neq in Hz.
      destruct (route_lookup h (Method msg)) as [cb |] eqn:Hroute.
      * right; right; left. exists cb, w. split; [| done].
        by apply dispatched_route.
      * right; left. done.
  - assert (Hncall : ~ is_call msg).
    { intros [E | E]; apply orb_false_iff in Hc as [Hc1 Hc2];
        apply bool_decide_eq_false in Hc1, Hc2; done. }
    destruct (bool_decide (Cmd msg = CmdResponse)) eqn:Hr.
    + apply bool_decide_eq_true in Hr.
      destruct (0 <? MethodLen msg)%nat eqn:Hz.
      { apply Nat.ltb_lt in Hz. do 3 right; left.
        split; [done |]. split; [lia | done]. }
      apply Nat.ltb_ge in Hz.
      assert (Hlen : MethodLen msg = 0%nat) by lia.
      destruct (IsAsync msg) eqn:Hasync; simpl negb; cbv iota;
        rewrite func_bind_lift.
      * destruct (asyncHandlerMap (w_client w) !! Seq msg) as [cb |] eqn:Hcb.
        -- right; right; left. exists cb, (getAndDeleteAsyncHandler (Seq msg) w).2.
           split; [by apply dispatched_callback |].
           assert (E : (getAndDeleteAsyncHandler (Seq msg) w).1 = Some cb) by exact Hcb.
           by rewrite E.
        -- do 6 right; left.
           assert (E : (getAndDeleteAsyncHandler (Seq msg) w).1 = None) by exact Hcb.
           rewrite E. done.
      * destruct (sessionMap (w_client w) !! Seq msg) as [s |] eqn:Hs.
        -- do 4 right; left.
           assert (E : (getSession (Seq msg) w).1 = Some s) by exact Hs.
           rewrite E. repeat split; try done. by exists s.
        -- do 5 right; left.
           assert (E : (getSession (Seq msg) w).1 = None) by exact Hs.
           rewrite E. done.
    + apply bool_decide_eq_false in Hr. do 7 right. done.
Qed.


(** X2: a message whose command kind is none of Request, Notify and
    Response is handed back to the pool and reported at info level; no user
    code runs, no table is consulted, client and application state stay as
    they are. *)
Theorem OnMessage_unknown_cmd h msg w :
  Cmd msg <> CmdRequest ->
  Cmd msg <> CmdNotify ->
  Cmd msg <> CmdResponse ->
  OnMessage h msg w =
    ({| w_client := w_client w; w_app := w_app w;
        w_trace :=
          w_trace w ++
            [EvMemPut msg;
             EvLog LInfo "OnMessage: invalid cmd [%v]"
               [ArgInt (Z.of_N (Byte.to_N (Cmd msg)))]] |}, None).
Proof.
  intros H1 H2 H3. unfold OnMessage.
  rewrite !bool_decide_eq_false_2 by done. cbn [orb].
  rewrite func_bind_exec, func_exec.
  unfold Info, memPut, emit. cbn [w_client w_app w_trace].
  by rewrite <- app_assoc.
Qed.

Lemma ctx_balance_app (tr1 tr2 : list Event) :
  ctx_balance (tr1 ++ tr2) = ctx_balance tr1 + ctx_balance tr2.
Proof.
  induction tr1 as [| e tr1 IH]; [done |].
  destruct e; simpl; rewrite ?IH; lia.
Qed.

(** X3: every context [OnMessage] takes from the pool it hands back before
    it returns, also when the user code panics. *)
Theorem OnMessage_contexts_balanced h msg w :
  ctx_balance (w_trace (OnMessage h msg w).1) = ctx_balance (w_trace w).
Proof.
  destruct (OnMessage_paths h msg w)
    as [(_ & _ & ->) | [(_ & _ & _ & ->) | [(cb & w1 & Hd & ->) | [(_ & _ & ->)
        | [(_ & _ & _ & _ & ->) | [(_ & _ & _ & _ & ->) | [(_ & _ & _ & _ & ->)
        | (_ & _ & ->)]]]]]]];
    try (simpl; rewrite !ctx_balance_app; simpl; lia).
  rewrite func_dispatch. simpl. rewrite !ctx_balance_app.
  destruct (cb _ _).2; destruct Hd; simpl; rewrite ?ctx_balance_app; simpl; lia.
Qed.

(** X4: [OnMessage] gives up no message but its own, and its own at most
    once: the number of releases and transfers of any other message is
    unchanged, that of [msg] grows by one at most. *)
Theorem OnMessage_settles_at_most_once h msg w m :
  (m <> msg ->
   settlements m (w_trace (OnMessage h msg w).1) = settlements m (w_trace w))
  /\ (settlements msg (w_trace (OnMessage h msg w).1)
      <= S (settlements msg (w_trace w)))%nat.
Proof.
  assert (Hput : forall m' tr,
    settlements m' (tr ++ [EvMemPut msg]) =
      (settlements m' tr + if bool_decide (msg = m') then 1 else 0)%nat).
  { intros m' tr. rewrite settlements_app. cbn [settlements]. lia. }
  assert (Hsend : forall m' seq tr,
    settlements m' (tr ++ [EvChanSend seq msg]) =
      (settlements m' tr + if bool_decide (msg = m') then 1 else 0)%nat).
  { intros m' seq tr. rewrite settlements_app. cbn [settlements]. lia. }
  assert (Hall : forall m',
    (settlements m' (w_trace (OnMessage h msg w).1)
     <= settlements m' (w_trace w) + if bool_decide (msg = m') then 1 else 0)%nat
    /\ (settlements m' (w_trace w)
        <= settlements m' (w_trace (OnMessage h msg w).1))%nat).
  { intros m'.
    destruct (OnMessage_paths h msg w)
      as [(_ & _ & ->) | [(_ & _ & _ & ->) | [(cb & w1 & Hd & ->) | [(_ & _ & ->)
          | [(_ & _ & _ & _ & ->) | [(_ & _ & _ & _ & ->) | [(_ & _ & _ & _ & ->)
          | (_ & _ & ->)]]]]]]].
    - cbn [fst Warn emit w_trace]. rewrite settlements_app.
      cbn [settlements]. lia.
    - cbn [fst Warn memPut emit w_trace]. rewrite settlements_app, Hput.
      cbn [settlements]. lia.
    - rewrite func_dispatch. cbn [fst w_trace].
      replace [EvCtxPut {| ctxMessage := msg |}; EvMemPut msg]
        with ([EvCtxPut {| ctxMessage := msg |}] ++ [EvMemPut msg]) by done.
      rewrite !app_assoc, Hput, !settlements_app.
      assert (Hw1 : settlements m' (w_trace w1) = settlements m' (w_trace w)).
      { destruct Hd; [done |].
        cbn [getAndDeleteAsyncHandler snd emit w_trace set_client].
        rewrite settlements_app. cbn [settlements]. lia. }
      rewrite Hw1.
      destruct (cb _ _).2; cbn [recovered settlements]; lia.
    - cbn [fst Warn emit w_trace]. rewrite settlements_app.
      cbn [settlements]. lia.
    - cbn [fst chan_send getSession snd emit w_trace set_client].
      rewrite Hsend, settlements_app. cbn [settlements]. lia.
    - cbn [fst Warn memPut getSession snd emit w_trace set_client].
      rewrite settlements_app, Hput, settlements_app. cbn [settlements]. lia.
    - cbn [fst Warn memPut getAndDeleteAsyncHandler snd emit w_trace set_client].
      rewrite settlements_app, Hput, settlements_app. cbn [settlements]. lia.
    - cbn [fst Info memPut emit w_trace]. rewrite settlements_app, Hput.
      cbn [settlements]. lia. }
  split.
  - intros Hne. destruct (Hall m) as [Hle Hge].
    rewrite bool_decide_eq_false_2 in Hle by done. lia.
  - destruct (Hall msg) as [Hle _].
    rewrite bool_decide_eq_true_2 in Hle by done. lia.
Qed.

(** Reaching the guarded invocation means running it as a frame. *)
Lemma OnMessage_dispatched h msg w cb w1 :
  dispatched h w msg cb w1 ->
  OnMessage h msg w = func (dispatch cb msg) w1.
Proof.
  intros [cb' Hcall Hlen Hroute | cb' Hcmd Hlen Hasync Hcb]; unfold OnMessage.
  - rewrite (is_call_case _ Hcall).
    assert (Hz : (MethodLen msg =? 0)%nat = false) by (by apply Nat.eqb_neq).
    by rewrite Hz, Hroute.
  - destruct (response_case _ Hcmd) as [-> ->].
    rewrite Hlen, Hasync. simpl. rewrite func_bind_lift.
    assert (E : (getAndDeleteAsyncHandler (Seq msg) w).1 = Some cb') by exact Hcb.
    by rewrite E.
Qed.

(** X5: an async callback fires once.  When an async-flagged Response
    finds its callback, the callback is invoked; a second async-flagged
    Response with the same sequence number, arriving next, finds nothing:
    it is released with the warning and no user code runs. *)
Theorem OnMessage_callback_fires_once h msg msg' w cb :
  Cmd msg = CmdResponse -> MethodLen msg = 0%nat -> IsAsync msg = true ->
  asyncHandlerMap (w_client w) !! Seq msg = Some cb ->
  Cmd msg' = CmdResponse -> MethodLen msg' = 0%nat -> IsAsync msg' = true ->
  Seq msg' = Seq msg ->
  let w1 := (OnMessage h msg w).1 in
  invocations (w_trace w1) = invocations (w_trace w) ++ [{| ctxMessage := msg |}]
  /\ w_trace (OnMessage h msg' w1).1 =
       w_trace w1 ++
         [EvGetAndDeleteAsyncHandler (Seq msg); EvMemPut msg';
          EvLog LWarn "OnMessage: async handler not exist or expired" []]
  /\ w_app (OnMessage h msg' w1).1 = w_app w1.
Proof.
  intros Hcmd Hlen Hasync Hcb Hcmd' Hlen' Hasync' Hseq w1.
  assert (Hw1 : w1 = (func (dispatch cb msg) (getAndDeleteAsyncHandler (Seq msg) w).2).1).
  { subst w1. f_equal. apply OnMessage_dispatched. by apply dispatched_callback. }
  rewrite func_dispatch in Hw1. cbn [fst] in Hw1.
  assert (Hgone : asyncHandlerMap (w_client w1) !! Seq msg' = None).
  { rewrite Hw1, Hseq. simpl. apply lookup_delete_eq. }
  split.
  - rewrite Hw1. simpl. rewrite !invocations_app.
    destruct (cb _ _).2; simpl; by rewrite app_nil_r.
  - unfold OnMessage. destruct (response_case _ Hcmd') as [-> ->].
    rewrite Hlen', Hasync'. simpl negb. cbv iota. cbn [Nat.ltb Nat.leb orb].
    rewrite func_bind_lift.
    assert (E : (getAndDeleteAsyncHandler (Seq msg') w1).1 = None) by exact Hgone.
    rewrite E, func_bind_exec, func_exec, Hseq. simpl.
    by rewrite <- !app_assoc.
Qed.



(** X8: registration and dispatch compose.  After [Handle] has accepted
    [cb] for a method, a Request or Notify that names this method invokes
    user code exactly once, with a context holding the message, and what
    happens is the guarded run of [cb]. *)
Theorem Handle_then_dispatch h method cb msg w :
  (Handle h method cb).2 = None ->
  is_call msg ->
  MethodLen msg <> 0%nat ->
  Method msg = method ->
  let h' := (Handle h method cb).1 in
  OnMessage h' msg w = func (dispatch cb msg) w
  /\ invocations (w_trace (OnMessage h' msg w).1) =
       invocations (w_trace w) ++ [{| ctxMessage := msg |}].
Proof.
  intros Hok Hcall Hlen Hm h'.
  assert (Hroute : route_lookup h' (Method msg) = Some cb).
  { subst h'. rewrite Hm. unfold Handle, route_lookup in *.
    destruct (MaxMethodLen <? String.length method)%nat; [done |].
    destruct (_ !! method); [done |]. simpl. by rewrite lookup_insert_eq. }
  assert (Hrun : OnMessage h' msg w = func (dispatch cb msg) w).
  { apply OnMessage_dispatched. by apply dispatched_route. }
  split; [done |]. rewrite Hrun, func_dispatch. simpl.
  rewrite !invocations_app.
  destruct (cb _ _).2; simpl; rewrite ?app_nil_r; done.
Qed.

(** X9: registering a method twice.  Once [Handle] has accepted a method,
    a second [Handle] for it panics with the "handler exist" error,
    whatever the new handler is, and the handler registered first stays. *)
Theorem Handle_twice_panics h method cb cb' :
  (Handle h method cb).2 = None ->
  let h1 := (Handle h method cb).1 in
  Handle h1 method cb' =
    (h1, Some (Errorf "handler exist for method %v " [ArgStr method]))
  /\ route_lookup h1 method = Some cb.
Proof.
  intros Hok h1. subst h1. unfold Handle, route_lookup in *.
  destruct (MaxMethodLen <? String.length method)%nat eqn:Hlen; [done |].
  destruct (_ !! method) eqn:Hold; [done |]. simpl.
  rewrite lookup_insert_eq. done.
Qed.

(** X10: registrations of different methods commute: when both names fit
    and neither is registered yet, the handler after the two calls is the
    same in either order, and both calls return normally. *)
Theorem Handle_commutes h m1 m2 cb1 cb2 :
  m1 <> m2 ->
  (String.length m1 <= MaxMethodLen)%nat ->
  (String.length m2 <= MaxMethodLen)%nat ->
  route_lookup h m1 = None ->
  route_lookup h m2 = None ->
  let h12 := Handle (Handle h m1 cb1).1 m2 cb2 in
  let h21 := Handle (Handle h m2 cb2).1 m1 cb1 in
  h12 = h21
  /\ h12.2 = None
  /\ (Handle h m1 cb1).2 = None
  /\ route_lookup h12.1 m1 = Some cb1
  /\ route_lookup h12.1 m2 = Some cb2.
Proof.
  intros Hne Hl1 Hl2 Hn1 Hn2. cbv zeta.
  assert (E1 : (MaxMethodLen <? String.length m1)%nat = false)
    by (apply Nat.ltb_ge; lia).
  assert (E2 : (MaxMethodLen <? String.length m2)%nat = false)
    by (apply Nat.ltb_ge; lia).
  unfold Handle, route_lookup in *. rewrite E1, E2.
  destruct (routes h) as [r |]; simpl.
  - rewrite Hn1, Hn2. simpl. rewrite ?E1, ?E2.
    rewrite !lookup_insert_ne, Hn1, Hn2 by done. simpl.
    rewrite lookup_insert_ne, !lookup_insert_eq by done.
    repeat split; try done. unfold set_routes. simpl.
    do 3 f_equal. by apply insert_insert_ne.
  - rewrite !lookup_empty. simpl. rewrite ?E1, ?E2.
    rewrite !lookup_insert_ne, !lookup_empty by done. simpl.
    rewrite lookup_insert_ne, !lookup_insert_eq by done.
    repeat split; try done. unfold set_routes. simpl.
    do 3 f_equal. by apply insert_insert_ne.
Qed.

End Dispatcher.

(** * Further properties of the receive and send paths *)

Section Transport.

Context {U : Type}.
Context `{WF : WireFormat}.

Implicit Types (h : handler U) (c : Client U) (m : Message).

(** [Recv] once the hook has let it go ahead. *)
Lemma Recv_passed h c conn1 :
  hook_passed (beforeRecv h) (Conn c) conn1 ->
  Recv h c =
    let c1 := set_Conn c conn1 in
    let '((head, _, err), rd) := ReadFull (Reader c1) (Head c1) in
    let c2 := set_Head (set_Reader c1 rd) head in
    match err with
    | Some e => (([], Some e), c2)
    | None =>
        let '(msg, err) := message (Head c2) in
        if bool_decide (err = None) && (HeadLen <? length msg)%nat then
          let '((body, _, err), rd) := ReadFull (Reader c2) (drop HeadLen msg) in
          ((take HeadLen msg ++ body, err), set_Reader c2 rd)
        else ((msg, err), c2)
    end.
Proof.
  intros [Hnone | f conn' Hsome Hok]; unfold Recv.
  - rewrite Hnone. by rewrite set_Conn_same.
  - by rewrite Hsome, Hok.
Qed.

(** One frame at the front of the stream. *)
Lemma Recv_frame h c conn1 m rest :
  hook_passed (beforeRecv h) (Conn c) conn1 ->
  length (Head c) = HeadLen ->
  (HeadLen <= length m)%nat ->
  rd_data (Reader c) = m ++ rest ->
  (message (take HeadLen m)).2 = None ->
  length (message (take HeadLen m)).1 = length m ->
  Recv h c =
    ((take HeadLen (message (take HeadLen m)).1 ++ drop HeadLen m, None),
     set_Reader (set_Head (set_Conn c conn1) (take HeadLen m))
       {| rd_data := rest; rd_err := rd_err (Reader c) |}).
Proof.
  intros Hpass Hhead Hm Hdata Herr Hlen.
  rewrite (Recv_passed _ _ _ Hpass). cbv zeta. simpl Reader. simpl Head.
  rewrite ReadFull_enough by (rewrite Hdata, length_app; lia).
  rewrite Hhead, Hdata. rewrite take_app_le, drop_app_le by lia.
  simpl Head.
  destruct (message (take HeadLen m)) as [m0 err] eqn:Hm0.
  simpl in Herr, Hlen. subst err. simpl.
  destruct (HeadLen <? length m0)%nat eqn:Hbody.
  - apply Nat.ltb_lt in Hbody.
    rewrite ReadFull_enough
      by (simpl; rewrite ?length_app, ?length_drop; lia).
    rewrite length_drop, Hlen. cbn [rd_data rd_err].
    rewrite take_app_le by (rewrite length_drop; lia).
    rewrite drop_app_le by (rewrite length_drop; lia).
    rewrite (take_ge (drop HeadLen m)) by (rewrite length_drop; lia).
    rewrite (drop_ge (drop HeadLen m)) by (rewrite length_drop; lia).
    done.
  - apply Nat.ltb_ge in Hbody.
    rewrite (drop_ge m) by lia. rewrite app_nil_r.
    rewrite (take_ge m0) by lia. done.
Qed.

(** X11: [Recv] takes exactly one frame off the stream.  When the reader
    holds two frames one after the other, each of at least [HeadLen] bytes
    and with a head that [message] decodes to a buffer of the frame's length
    starting with that head, two calls return the first and then the second
    frame and leave what follows them in the reader. *)
Theorem Recv_consecutive_frames h c conn1 conn2 m1 m2 rest :
  length (Head c) = HeadLen ->
  rd_data (Reader c) = m1 ++ m2 ++ rest ->
  hook_passed (beforeRecv h) (Conn c) conn1 ->
  hook_passed (beforeRecv h) conn1 conn2 ->
  (HeadLen <= length m1)%nat ->
  (HeadLen <= length m2)%nat ->
  message (take HeadLen m1) = (take HeadLen m1 ++ replicate (length m1 - HeadLen) x00, None) ->
  message (take HeadLen m2) = (take HeadLen m2 ++ replicate (length m2 - HeadLen) x00, None) ->
  (Recv h c).1 = (m1, None)
  /\ (Recv h (Recv h c).2).1 = (m2, None)
  /\ rd_data (Reader (Recv h (Recv h c).2).2) = rest
  /\ Conn (Recv h (Recv h c).2).2 = conn2.
Proof.
  intros Hhead Hdata Hp1 Hp2 Hl1 Hl2 Hd1 Hd2.
  assert (Hpre : forall m, (HeadLen <= length m)%nat ->
    take HeadLen (take HeadLen m ++ replicate (length m - HeadLen) x00)
      ++ drop HeadLen m = m).
  { intros m Hm. rewrite take_app_le by (rewrite length_take; lia).
    rewrite take_take, Nat.min_id. apply take_drop. }
  assert (Hlenm : forall m, (HeadLen <= length m)%nat ->
    length (take HeadLen m ++ replicate (length m - HeadLen) x00) = length m).
  { intros m Hm. rewrite length_app, length_take, length_replicate. lia. }
  assert (H1 : Recv h c =
    ((m1, None),
     set_Reader (set_Head (set_Conn c conn1) (take HeadLen m1))
       {| rd_data := m2 ++ rest; rd_err := rd_err (Reader c) |})).
  { rewrite (Recv_frame h c conn1 m1 (m2 ++ rest)); try done.
    - rewrite Hd1. simpl. by rewrite Hpre.
    - by rewrite Hd1.
    - rewrite Hd1. simpl. by apply Hlenm. }
  rewrite H1. simpl. split; [done |].
  rewrite (Recv_frame h _ conn2 m2 rest); try done.
  - rewrite Hd2. simpl. by rewrite Hpre.
  - simpl. rewrite length_take. lia.
  - by rewrite Hd2.
  - rewrite Hd2. simpl. by apply Hlenm.
Qed.

(** X12: how [Recv] reports the end of the stream when the reader ends
    with [EOF].  Nothing left at a frame boundary: [EOF] and no message.
    The stream ends inside the head: [ErrUnexpectedEOF] and no message.
    The stream ends right after a head that announces a body: [EOF], and
    the buffer with its body unread is returned with it.  The stream ends
    inside the body: [ErrUnexpectedEOF]. *)
Theorem Recv_end_of_stream h c conn1 :
  hook_passed (beforeRecv h) (Conn c) conn1 ->
  length (Head c) = HeadLen ->
  rd_err (Reader c) = EOF ->
  let data := rd_data (Reader c) in
  (data = [] -> (0 < HeadLen)%nat -> (Recv h c).1 = ([], Some EOF))
  /\ (data <> [] -> (length data < HeadLen)%nat ->
      (Recv h c).1 = ([], Some ErrUnexpectedEOF))
  /\ (forall m0,
      (HeadLen <= length data)%nat ->
      message (take HeadLen data) = (m0, None) ->
      (HeadLen < length m0)%nat ->
      (length data = HeadLen -> (Recv h c).1 = (m0, Some EOF))
      /\ ((HeadLen < length data < length m0)%nat ->
          (Recv h c).1.2 = Some ErrUnexpectedEOF)).
Proof.
  intros Hpass Hhead Heof data.
  rewrite (Recv_passed _ _ _ Hpass). cbv zeta. simpl Reader. simpl Head.
  fold data. split; [| split].
  - intros Hnil Hpos.
    rewrite ReadFull_short by (fold data; rewrite Hnil; simpl; lia).
    unfold short_read_error. fold data. rewrite Hnil, Heof. done.
  - intros Hne Hshort.
    rewrite ReadFull_short by (fold data; lia).
    unfold short_read_error. fold data.
    rewrite Heof, !bool_decide_eq_true_2 by done. done.
  - intros m0 Hfull Hm0 Hbody.
    rewrite ReadFull_enough by (fold data; lia).
    rewrite Hhead. fold data. simpl Head. rewrite Hm0. simpl.
    assert (E : (HeadLen <? length m0)%nat = true) by (by apply Nat.ltb_lt).
    rewrite E. split.
    + intros Hexact.
      rewrite ReadFull_short by (simpl; rewrite !length_drop; lia).
      simpl. unfold short_read_error. simpl.
      rewrite (drop_ge data) by lia. simpl.
      by rewrite drop_0, take_drop, Heof.
    + intros Hpart.
      rewrite ReadFull_short by (simpl; rewrite !length_drop; lia).
      simpl. unfold short_read_error. simpl. rewrite Heof.
      rewrite !bool_decide_eq_true_2; [done | done |].
      intros Habs. apply (f_equal length) in Habs.
      rewrite length_drop in Habs. simpl in Habs. lia.
Qed.





End Transport.

(** * Properties of the configuration and of Clone *)

Section Setup.

Context {U : Type}.
Context `{WF : WireFormat}.

Variable bufio_NewReaderSize : net_Conn -> Z -> io_Reader.
Variable conn_Reader : net_Conn -> io_Reader.

Implicit Types (h : handler U) (w : World U) (c : Client U).
Implicit Types (msg : Message) (cb : HandlerFunc U).
Implicit Types (mem : MapHeap U) (s : handlerStruct).

(** X15: of the handler, [OnMessage] reads the route of the message's
    method and nothing else: two handlers that agree on it, whatever their
    hooks, flags and other routes, do the same with the message. *)
Theorem OnMessage_reads_one_route h h' msg w :
  route_lookup h (Method msg) = route_lookup h' (Method msg) ->
  OnMessage h msg w = OnMessage h' msg w.
Proof. intros Hsame. apply OnMessage_route_only. by intros _ _. Qed.

(** X16: the six setters configure the transport only.  None of them
    changes what [OnMessage] does or what [Handle] accepts; [Recv] is
    changed by [BeforeRecv] alone and [Send]/[SendN] by [BeforeSend]
    alone. *)
Theorem setters_keep_behaviour h (hook : option Hook) (batch : bool) (size : Z)
    (wrapper : option (net_Conn -> io_Reader)) :
  Forall (fun h' =>
            (forall msg w, OnMessage h' msg w = OnMessage h msg w)
            /\ (forall m, route_lookup h' m = route_lookup h m)
            /\ (forall method cb, (Handle h' method cb).2 = (Handle h method cb).2))
    [BeforeRecv h hook; BeforeSend h hook; SetBatchRecv h batch;
     SetBatchSend h batch; SetReaderWrapper h wrapper; SetSendQueueSize h size]
  /\ Forall (fun h' => forall c, Recv h' c = Recv h c)
       [BeforeSend h hook; SetBatchRecv h batch; SetBatchSend h batch;
        SetReaderWrapper h wrapper; SetSendQueueSize h size]
  /\ Forall (fun h' => forall conn m buffers,
               Send h' conn m = Send h conn m
               /\ SendN h' conn buffers = SendN h conn buffers)
       [BeforeRecv h hook; SetBatchRecv h batch; SetBatchSend h batch;
        SetReaderWrapper h wrapper; SetSendQueueSize h size].
Proof.
  split; [| split].
  - repeat (constructor;
              [split; [intros msg w; by apply OnMessage_route_only |];
               split; [done |];
               intros method cb; unfold Handle; simpl;
               destruct (MaxMethodLen <? String.length method)%nat; [done |];
               by destruct (_ !! method) |]).
    constructor.
  - repeat (constructor; [done |]). constructor.
  - repeat (constructor; [done |]). constructor.
Qed.

(** X17: a handler from [NewHandler].  Its defaults are batch receive and
    send, a send queue of 1024 and a buffered reader of 1024 bytes, which
    [SetReaderWrapper(nil)] replaces by the connection itself.  It has no
    hooks, so [Send] is the plain write.  Before any registration no
    Request or Notify reaches user code; and the first [Handle] of any name
    that fits succeeds and routes exactly that name. *)
Theorem NewHandler_fresh method cb :
  (String.length method <= MaxMethodLen)%nat ->
  let h : handler U := NewHandler bufio_NewReaderSize in
  (BatchRecv h = true /\ BatchSend h = true /\ SendQueueSize h = 1024)
  /\ (forall conn,
        WrapReader conn_Reader h conn = bufio_NewReaderSize conn 1024
        /\ WrapReader conn_Reader (SetReaderWrapper h None) conn = conn_Reader conn)
  /\ (forall conn m, Send h conn m = conn_Write conn m)
  /\ (forall msg w,
        is_call msg ->
        invocations (w_trace (OnMessage h msg w).1) = invocations (w_trace w))
  /\ (Handle h method cb).2 = None
  /\ (forall m,
        route_lookup (Handle h method cb).1 m =
          if decide (m = method) then Some cb else None).
Proof.
  intros Hfit h. split; [done |]. split; [done |]. split; [done |]. split.
  - intros msg w Hcall. unfold OnMessage. rewrite (is_call_case _ Hcall).
    destruct (MethodLen msg =? 0)%nat; simpl;
      rewrite !invocations_app; simpl; by rewrite !app_nil_r.
  - assert (E : (MaxMethodLen <? String.length method)%nat = false)
      by (apply Nat.ltb_ge; lia).
    unfold Handle, route_lookup. simpl. rewrite E, lookup_empty. simpl.
    split; [done |]. intros m. case_decide as Hm.
    + subst m. by rewrite lookup_insert_eq.
    + by rewrite lookup_insert_ne, lookup_empty.
Qed.

(** The memory-level [Handle] against the value-level one. *)
Lemma Handle_mem_view mem s method cb :
  let r := Handle_mem mem s method cb in
  view r.1.1 r.1.2 = (Handle (view mem s) method cb).1
  /\ r.2 = (Handle (view mem s) method cb).2.
Proof.
  cbv zeta. destruct s as [bR bS q hR hS wr [l |]];
    unfold Handle_mem, Handle, view, set_m_routes, set_routes;
    cbn [m_routes m_batchRecv m_batchSend m_sendQueueSize m_beforeRecv
         m_beforeSend m_wrapReader routes batchRecv batchSend sendQueueSize
         beforeRecv beforeSend wrapReader].
  - destruct (MaxMethodLen <? String.length method)%nat; [done |].
    case_match; simpl; [done |].
    by rewrite lookup_total_insert_eq.
  - rewrite lookup_total_insert_eq, lookup_empty.
    destruct (MaxMethodLen <? String.length method)%nat; simpl;
      by rewrite lookup_total_insert_eq.
Qed.

(** With a table in place, [Handle] leaves the struct as it is. *)
Lemma Handle_mem_struct mem s l method cb :
  m_routes s = Some l ->
  (Handle_mem mem s method cb).1.2 = s.
Proof.
  intros Hl. unfold Handle_mem. rewrite Hl.
  assert (E : set_m_routes s (Some l) = s)
    by (destruct s; simpl in *; by subst).
  rewrite E.
  destruct (MaxMethodLen <? String.length method)%nat; [done |].
  by case_match.
Qed.

(** X18: [Handle] on a struct in memory is [Handle] on the handler the
    struct denotes: the same panic or normal return, and the struct after
    the call denotes the handler after the call.  Nothing but the route
    reference of the struct can change, and only from nil to a table. *)
Theorem Handle_mem_refines mem s method cb :
  let r := Handle_mem mem s method cb in
  view r.1.1 r.1.2 = (Handle (view mem s) method cb).1
  /\ r.2 = (Handle (view mem s) method cb).2
  /\ (forall l, m_routes s = Some l -> r.1.2 = s)
  /\ set_m_routes r.1.2 (m_routes s) = s.
Proof.
  cbv zeta. destruct (Handle_mem_view mem s method cb) as [Hv Hp].
  split; [done |]. split; [done |]. split.
  - intros l Hl. by apply (Handle_mem_struct mem s l).
  - unfold Handle_mem. destruct s as [bR bS q hR hS wr [l |]]; simpl;
      destruct (MaxMethodLen <? String.length method)%nat; simpl; try done;
      by case_match.
Qed.

(** X19: a clone of a handler that has a route table shares it.  [Handle]
    through the clone does to the original exactly what [Handle] on the
    original does: the new method becomes routed there too, and a method the
    original has makes the call panic. *)
Theorem Clone_shares_routes mem s l method cb :
  m_routes s = Some l ->
  let r := Handle_mem mem (Clone s) method cb in
  view r.1.1 s = (Handle (view mem s) method cb).1
  /\ r.2 = (Handle (view mem s) method cb).2
  /\ (r.2 = None -> route_lookup (view r.1.1 s) method = Some cb).
Proof.
  intros Hl. cbv zeta.
  assert (Hc : Clone s = s) by (by destruct s).
  rewrite Hc.
  destruct (Handle_mem_view mem s method cb) as [Hv Hp].
  rewrite (Handle_mem_struct mem s l) in Hv by done. split; [done |]. split; [done |].
  intros Hok. rewrite Hv. rewrite Hp in Hok.
  unfold Handle, route_lookup in *.
  destruct (MaxMethodLen <? String.length method)%nat; [done |].
  destruct (_ !! method); [done |]. simpl. by rewrite lookup_insert_eq.
Qed.

(** X20: [Handle] on a handler without a route table makes a new table for
    this handler alone, also when the call panics over the method's length.
    The table lies at a location that did not exist before, so every table
    that existed is unchanged, and a clone taken before the call, or the
    original of such a clone, still has no routes. *)
Theorem Handle_mem_allocates mem s method cb :
  m_routes s = None ->
  let r := Handle_mem mem s method cb in
  let l := fresh (dom mem) in
  (l ∉ dom mem)
  /\ m_routes r.1.2 = Some l
  /\ (forall l', l' ∈ dom mem -> r.1.1 !! l' = mem !! l')
  /\ (forall m, route_lookup (view r.1.1 (Clone s)) m = None)
  /\ r.1.1 !! l =
       Some (if (String.length method <=? MaxMethodLen)%nat
             then {[ method := cb ]} else ∅).
Proof.
  intros Hnil. cbv zeta.
  assert (Hfresh : fresh (dom mem) ∉ dom mem) by apply is_fresh.
  split; [done |].
  unfold Handle_mem. rewrite Hnil.
  rewrite lookup_total_insert_eq, lookup_empty.
  rewrite Nat.leb_antisym.
  destruct (MaxMethodLen <? String.length method)%nat; cbn [fst snd negb].
  - split; [done |]. split.
    + intros l' Hin. rewrite lookup_insert_ne; [done |]. by intros <-.
    + split; [| by rewrite lookup_insert_eq].
      intros m. unfold route_lookup, view, Clone. simpl. by rewrite Hnil.
  - split; [done |]. split.
    + intros l' Hin. rewrite !lookup_insert_ne; [done | |]; by intros <-.
    + split; [| by rewrite lookup_insert_eq].
      intros m. unfold route_lookup, view, Clone. simpl. by rewrite Hnil.
Qed.

End Setup.

(** * The model at concrete inputs *)

Import Sample.

(** C1: the two early returns of [OnMessage] keep the message.  For a
    Request with method length 0 and for a Response that carries a method
    name, the call logs its warning and returns: the message is neither
    handed back to the pool nor sent to a session nor given to user code. *)
Theorem OnMessage_early_return_not_released :
  let r1 := OnMessage h2 req_nomethod w0 in
  let r2 := OnMessage h2 resp_method w0 in
  (is_call req_nomethod /\ MethodLen req_nomethod = 0%nat)
  /\ w_trace r1.1 =
       [EvLog LWarn "OnMessage: invalid request message with 0 method length, dropped" []]
  /\ settlements req_nomethod (w_trace r1.1) = 0%nat
  /\ invocations (w_trace r1.1) = []
  /\ (Cmd resp_method = CmdResponse /\ MethodLen resp_method = 4%nat)
  /\ w_trace r2.1 =
       [EvLog LWarn "OnMessage: invalid response message with method length %v, dropped"
          [ArgInt 4]]
  /\ settlements resp_method (w_trace r2.1) = 0%nat
  /\ invocations (w_trace r2.1) = [].
Proof.
  cbv zeta. repeat split; try (by left); vm_compute; reflexivity.
Qed.

(** The guarded release at a handler that panics and at a callback that
    returns. *)
Lemma OnMessage_guarded_release_witness :
  dispatched h2 w0 req_boom boom w0
  /\ dispatched h2 w0 resp_async echo (getAndDeleteAsyncHandler (Seq resp_async) w0).2
  /\ (let ctx := {| ctxMessage := req_boom |} in
      OnMessage h2 req_boom w0 =
        ({| w_client := client0; w_app := ["boom"];
            w_trace :=
              [EvCtxGet ctx; EvInvoke ctx; EvRecovered (ErrExternal "boom");
               EvCtxPut ctx; EvMemPut req_boom] |}, None))
  /\ (let ctx := {| ctxMessage := resp_async |} in
      (OnMessage h2 resp_async w0).2 = None
      /\ w_trace (OnMessage h2 resp_async w0).1 =
           [EvGetAndDeleteAsyncHandler 3; EvCtxGet ctx; EvInvoke ctx;
            EvCtxPut ctx; EvMemPut resp_async]).
Proof.
  assert (H1 : dispatched h2 w0 req_boom boom w0).
  { apply dispatched_route; [by left | discriminate | reflexivity]. }
  assert (H2 : dispatched h2 w0 resp_async echo (getAndDeleteAsyncHandler (Seq resp_async) w0).2).
  { apply (dispatched_callback h2 w0 resp_async echo); reflexivity. }
  split; [exact H1 |]. split; [exact H2 |]. split.
  - cbv zeta. rewrite (OnMessage_guarded_release h2 req_boom w0 boom w0 H1).
    reflexivity.
  - cbv zeta. rewrite (OnMessage_guarded_release h2 resp_async w0 echo _ H2).
    split; reflexivity.
Defined.

(** [Recv] on a reader that holds a whole frame, and on a vetoing hook. *)
Lemma Recv_algorithm_witness :
  length (Head client_rx) = HeadLen
  /\ hook_passed (beforeRecv h0) (Conn client_rx) (Conn client_rx)
  /\ (Recv h0 client_rx).1 = (req_echo, None)
  /\ rd_data (Reader (Recv h0 client_rx).2) = take 5 resp_sync
  /\ Recv h_reject client_rx = (([], Some (ErrExternal "rate limited")), client_rx).
Proof.
  assert (H1 : length (Head client_rx) = HeadLen) by reflexivity.
  assert (H2 : hook_passed (beforeRecv h0) (Conn client_rx) (Conn client_rx))
    by (by apply hook_absent).
  split; [exact H1 |]. split; [exact H2 |].
  destruct (Recv_algorithm h0 client_rx H1) as [_ Hpass].
  destruct (Hpass _ H2) as [_ Hfull].
  assert (H3 : (HeadLen <= length (rd_data (Reader client_rx)))%nat)
    by (vm_compute; lia).
  destruct (Hfull H3) as (_ & _ & Hbody & _).
  rewrite Hbody; [| reflexivity | vm_compute; lia | vm_compute; lia].
  split; [reflexivity |]. split; [reflexivity |].
  destruct (Recv_algorithm h_reject client_rx H1) as [Hveto _].
  rewrite (Hveto reject (ErrExternal "rate limited") conn0); reflexivity.
Defined.

(** A Request without a method name. *)
Lemma OnMessage_zero_method_dropped_witness :
  is_call req_nomethod
  /\ MethodLen req_nomethod = 0%nat
  /\ OnMessage h2 req_nomethod w0 =
       (Warn "OnMessage: invalid request message with 0 method length, dropped" [] w0,
        None)
  /\ invocations (w_trace (OnMessage h2 req_nomethod w0).1) = [].
Proof.
  assert (H1 : is_call req_nomethod) by (by left).
  assert (H2 : MethodLen req_nomethod = 0%nat) by reflexivity.
  split; [exact H1 |]. split; [exact H2 |].
  destruct (OnMessage_zero_method_dropped h2 req_nomethod w0 H1 H2)
    as (Hr & Hinv & _).
  split; [exact Hr | exact Hinv].
Defined.

(** A Response that carries a method name. *)
Lemma OnMessage_response_with_method_dropped_witness :
  Cmd resp_method = CmdResponse
  /\ MethodLen resp_method <> 0%nat
  /\ w_trace (OnMessage h2 resp_method w0).1 =
       [EvLog LWarn "OnMessage: invalid response message with method length %v, dropped"
          [ArgInt 4]]
  /\ correlations (w_trace (OnMessage h2 resp_method w0).1) = [].
Proof.
  assert (H1 : Cmd resp_method = CmdResponse) by reflexivity.
  assert (H2 : MethodLen resp_method <> 0%nat) by discriminate.
  split; [exact H1 |]. split; [exact H2 |].
  destruct (OnMessage_response_with_method_dropped h2 resp_method w0 H1 H2)
    as (Hr & Hcor & _).
  split; [by rewrite Hr | exact Hcor].
Defined.

(** A Response for the waiting session 7, and an async Response for the
    callback 3. *)
Lemma OnMessage_response_resolved_witness :
  Cmd resp_sync = CmdResponse
  /\ MethodLen resp_sync = 0%nat
  /\ IsAsync resp_sync = false
  /\ sessionMap (w_client w0) !! Seq resp_sync = Some {| done := [] |}
  /\ w_trace (OnMessage h2 resp_sync w0).1 = [EvGetSession 7; EvChanSend 7 resp_sync]
  /\ sessionMap (w_client (OnMessage h2 resp_sync w0).1) !! 7 =
       Some {| done := [resp_sync] |}
  /\ asyncHandlerMap (w_client (OnMessage h2 resp_async w0).1) !! 3 = None.
Proof.
  assert (H1 : Cmd resp_sync = CmdResponse) by reflexivity.
  assert (H2 : MethodLen resp_sync = 0%nat) by reflexivity.
  assert (H3 : IsAsync resp_sync = false) by reflexivity.
  assert (H4 : sessionMap (w_client w0) !! Seq resp_sync = Some {| done := [] |})
    by reflexivity.
  split; [exact H1 |]. split; [exact H2 |]. split; [exact H3 |]. split; [exact H4 |].
  destruct (OnMessage_response_resolved h2 resp_sync w0 H1 H2) as (_ & Hhit & _).
  destruct (Hhit _ H3 H4) as (_ & Htr & Hdone & _).
  split; [exact Htr |]. split; [exact Hdone |].
  assert (A1 : Cmd resp_async = CmdResponse) by reflexivity.
  assert (A2 : MethodLen resp_async = 0%nat) by reflexivity.
  assert (A3 : IsAsync resp_async = true) by reflexivity.
  assert (A4 : asyncHandlerMap (w_client w0) !! Seq resp_async = Some echo)
    by reflexivity.
  destruct (OnMessage_response_resolved h2 resp_async w0 A1 A2)
    as (_ & _ & Hcb & _).
  destruct (Hcb echo A3 A4) as (_ & _ & Hdel & _).
  rewrite Hdel. reflexivity.
Defined.

(** A Request for a method nobody registered. *)
Lemma OnMessage_unrouted_released_witness :
  is_call req_unrouted
  /\ MethodLen req_unrouted <> 0%nat
  /\ route_lookup h2 (Method req_unrouted) = None
  /\ w_trace (OnMessage h2 req_unrouted w0).1 =
       [EvMemPut req_unrouted;
        EvLog LWarn "OnMessage: invalid method: [%v], no handler" [ArgStr "nope"]]
  /\ written (Conn (w_client (OnMessage h2 req_unrouted w0).1)) = [].
Proof.
  assert (H1 : is_call req_unrouted) by (by left).
  assert (H2 : MethodLen req_unrouted <> 0%nat) by discriminate.
  assert (H3 : route_lookup h2 (Method req_unrouted) = None) by reflexivity.
  split; [exact H1 |]. split; [exact H2 |]. split; [exact H3 |].
  destruct (OnMessage_unrouted_released h2 req_unrouted w0 H1 H2 H3)
    as (_ & Htr & _ & Hconn & _).
  split; [exact Htr | exact Hconn].
Defined.

(** [Handle] for a name that is too long, for one that is taken and for a
    new one. *)
Lemma Handle_fail_fast_witness :
  (MaxMethodLen < String.length long_method)%nat
  /\ (Handle h2 long_method echo).2 =
       Some (Errorf "invalid method length %v(> MaxMethodLen %v)"
               [ArgInt 128; ArgInt 127])
  /\ route_lookup h2 "echo" = Some echo
  /\ (Handle h2 "echo" boom).2 =
       Some (Errorf "handler exist for method %v " [ArgStr "echo"])
  /\ route_lookup (Handle h2 "echo" boom).1 "echo" = Some echo
  /\ route_lookup h2 "ping" = None
  /\ (Handle h2 "ping" echo).2 = None
  /\ route_lookup (Handle h2 "ping" echo).1 "ping" = Some echo.
Proof.
  assert (H1 : (MaxMethodLen < String.length long_method)%nat)
    by (vm_compute; lia).
  assert (H2 : route_lookup h2 "echo" = Some echo) by reflexivity.
  assert (H3 : route_lookup h2 "ping" = None) by reflexivity.
  destruct (Handle_fail_fast h2 long_method echo) as (Hlong & _).
  destruct (Hlong H1) as [Hp _].
  destruct (Handle_fail_fast h2 "echo" boom) as (_ & Hdup & _).
  destruct (Hdup echo ltac:(vm_compute; lia) H2) as [Hd Hkeep].
  destruct (Handle_fail_fast h2 "ping" echo) as (_ & _ & Hnew).
  destruct (Hnew ltac:(vm_compute; lia) H3) as (Hn & Hset & _).
  split; [exact H1 |]. split; [exact Hp |]. split; [exact H2 |].
  split; [exact Hd |]. split; [by rewrite Hkeep |]. split; [exact H3 |].
  split; [exact Hn | exact Hset].
Defined.

(** [Send] and [SendN] behind a vetoing hook and without a hook. *)
Lemma Send_hook_veto_witness :
  beforeSend h_reject = Some reject
  /\ Send h_reject conn0 req_echo = ((-1, Some (ErrExternal "rate limited")), conn0)
  /\ SendN h_reject conn0 [req_echo; resp_sync] =
       ((-1, Some (ErrExternal "rate limited")), conn0)
  /\ hook_passed (beforeSend h0) conn0 conn0
  /\ written (Send h0 conn0 req_echo).2 = req_echo
  /\ written (SendN h0 conn0 [req_echo; resp_sync]).2 = req_echo ++ resp_sync.
Proof.
  assert (H1 : beforeSend h_reject = Some reject) by reflexivity.
  assert (H2 : hook_passed (beforeSend h0) conn0 conn0) by (by apply hook_absent).
  destruct (Send_hook_veto h_reject conn0 req_echo [req_echo; resp_sync])
    as [Hveto _].
  assert (H3 : reject conn0 = (Some (ErrExternal "rate limited"), conn0))
    by reflexivity.
  assert (H4 : room conn0 = None) by reflexivity.
  destruct (Hveto reject (ErrExternal "rate limited") conn0 H1 H3) as [Hs Hn].
  destruct (Send_hook_veto h0 conn0 req_echo [req_echo; resp_sync]) as [_ Hpass].
  destruct (Hpass conn0 H2) as (_ & _ & Hall).
  destruct (Hall H4) as (_ & Hw & _ & Hwn).
  split; [exact H1 |]. split; [exact Hs |]. split; [exact Hn |].
  split; [exact H2 |]. split; [by rewrite Hw | by rewrite Hwn].
Defined.

(** Registering under the empty name on a fresh handler. *)
Lemma Handle_empty_method_unreachable_witness :
  route_lookup h0 "" = None
  /\ (Handle h0 "" echo).2 = None
  /\ route_lookup (Handle h0 "" echo).1 "" = Some echo
  /\ String.length (Method req_echo) = MethodLen req_echo
  /\ OnMessage (Handle h0 "" echo).1 req_echo w0 =
     OnMessage (set_routes (Handle h0 "" echo).1
                  (delete "" <$> routes (Handle h0 "" echo).1)) req_echo w0
  /\ invocations (w_trace (OnMessage (Handle h0 "" echo).1 req_nomethod w0).1) = [].
Proof.
  assert (H1 : route_lookup h0 "" = None) by reflexivity.
  assert (H2 : String.length (Method req_echo) = MethodLen req_echo) by reflexivity.
  destruct (Handle_empty_method_unreachable h0 echo H1)
    as (_ & Hok & Hreg & Hdrop & Hsame).
  split; [exact H1 |]. split; [exact Hok |]. split; [exact Hreg |].
  split; [exact H2 |]. split; [exact (Hsame req_echo w0 H2) |].
  apply (Hdrop req_nomethod w0); [by left | reflexivity].
Defined.

(** A frame with command kind 9. *)
Lemma OnMessage_unknown_cmd_witness :
  Cmd bad_cmd <> CmdRequest /\ Cmd bad_cmd <> CmdNotify
  /\ Cmd bad_cmd <> CmdResponse
  /\ OnMessage h2 bad_cmd w0 =
       ({| w_client := client0; w_app := [];
           w_trace :=
             [EvMemPut bad_cmd;
              EvLog LInfo "OnMessage: invalid cmd [%v]" [ArgInt 9]] |}, None).
Proof.
  assert (H1 : Cmd bad_cmd <> CmdRequest) by discriminate.
  assert (H2 : Cmd bad_cmd <> CmdNotify) by discriminate.
  assert (H3 : Cmd bad_cmd <> CmdResponse) by discriminate.
  split; [exact H1 |]. split; [exact H2 |]. split; [exact H3 |].
  rewrite (OnMessage_unknown_cmd h2 bad_cmd w0 H1 H2 H3). reflexivity.
Defined.

(** Releases counted for the dispatched Request and for another message. *)
Lemma OnMessage_settles_at_most_once_witness :
  req_nomethod <> req_echo
  /\ settlements req_nomethod (w_trace (OnMessage h2 req_echo w0).1) = 0%nat
  /\ (settlements req_echo (w_trace (OnMessage h2 req_echo w0).1) <= 1)%nat.
Proof.
  assert (H1 : req_nomethod <> req_echo) by discriminate.
  destruct (OnMessage_settles_at_most_once h2 req_echo w0 req_nomethod)
    as [Hother _].
  destruct (OnMessage_settles_at_most_once h2 req_echo w0 req_echo)
    as [_ Hown].
  split; [exact H1 |]. split; [exact (Hother H1) | exact Hown].
Defined.

(** The callback 3 and a late second Response for it. *)
Lemma OnMessage_callback_fires_once_witness :
  asyncHandlerMap (w_client w0) !! Seq resp_async = Some echo
  /\ Seq resp_async_again = Seq resp_async
  /\ invocations (w_trace (OnMessage h2 resp_async w0).1) =
       [{| ctxMessage := resp_async |}]
  /\ invocations
       (w_trace (OnMessage h2 resp_async_again (OnMessage h2 resp_async w0).1).1) =
       [{| ctxMessage := resp_async |}].
Proof.
  assert (A1 : Cmd resp_async = CmdResponse) by reflexivity.
  assert (A2 : MethodLen resp_async = 0%nat) by reflexivity.
  assert (A3 : IsAsync resp_async = true) by reflexivity.
  assert (A4 : asyncHandlerMap (w_client w0) !! Seq resp_async = Some echo)
    by reflexivity.
  assert (B1 : Cmd resp_async_again = CmdResponse) by reflexivity.
  assert (B2 : MethodLen resp_async_again = 0%nat) by reflexivity.
  assert (B3 : IsAsync resp_async_again = true) by reflexivity.
  assert (B4 : Seq resp_async_again = Seq resp_async) by reflexivity.
  destruct (OnMessage_callback_fires_once h2 resp_async resp_async_again w0 echo
              A1 A2 A3 A4 B1 B2 B3 B4) as (Hfirst & Hsecond & _).
  split; [exact A4 |]. split; [exact B4 |]. split; [exact Hfirst |].
  rewrite Hsecond, invocations_app, Hfirst. reflexivity.
Defined.



(** Registering "echo" on the empty handler, then a Request for it. *)
Lemma Handle_then_dispatch_witness :
  (Handle h0 "echo" echo).2 = None
  /\ is_call req_echo
  /\ MethodLen req_echo <> 0%nat
  /\ Method req_echo = "echo"
  /\ invocations (w_trace (OnMessage (Handle h0 "echo" echo).1 req_echo w0).1) =
       [{| ctxMessage := req_echo |}].
Proof.
  assert (H1 : (Handle h0 "echo" echo).2 = None) by reflexivity.
  assert (H2 : is_call req_echo) by (by left).
  assert (H3 : MethodLen req_echo <> 0%nat) by discriminate.
  assert (H4 : Method req_echo = "echo") by reflexivity.
  destruct (Handle_then_dispatch h0 "echo" echo req_echo w0 H1 H2 H3 H4)
    as [_ Hinv].
  split; [exact H1 |]. split; [exact H2 |]. split; [exact H3 |].
  split; [exact H4 | exact Hinv].
Defined.

(** Registering "echo" twice. *)
Lemma Handle_twice_panics_witness :
  (Handle h0 "echo" echo).2 = None
  /\ (Handle (Handle h0 "echo" echo).1 "echo" boom).2 =
       Some (Errorf "handler exist for method %v " [ArgStr "echo"])
  /\ route_lookup (Handle h0 "echo" echo).1 "echo" = Some echo.
Proof.
  assert (H1 : (Handle h0 "echo" echo).2 = None) by reflexivity.
  destruct (Handle_twice_panics h0 "echo" echo boom H1) as [Hp Hkeep].
  split; [exact H1 |]. split; [by rewrite Hp | exact Hkeep].
Defined.

(** "echo" and "boom" in both orders. *)
Lemma Handle_commutes_witness :
  "echo" <> "boom"
  /\ route_lookup h0 "echo" = None
  /\ route_lookup h0 "boom" = None
  /\ Handle (Handle h0 "echo" echo).1 "boom" boom =
     Handle (Handle h0 "boom" boom).1 "echo" echo.
Proof.
  assert (H1 : "echo" <> "boom") by discriminate.
  assert (H2 : route_lookup h0 "echo" = None) by reflexivity.
  assert (H3 : route_lookup h0 "boom" = None) by reflexivity.
  assert (L1 : (String.length "echo" <= MaxMethodLen)%nat) by (vm_compute; lia).
  assert (L2 : (String.length "boom" <= MaxMethodLen)%nat) by (vm_compute; lia).
  destruct (Handle_commutes h0 "echo" "boom" echo boom H1 L1 L2 H2 H3) as [Heq _].
  split; [exact H1 |]. split; [exact H2 |]. split; [exact H3 | exact Heq].
Defined.

(** Two frames and a stray byte in the reader. *)
Lemma Recv_consecutive_frames_witness :
  rd_data (Reader client_two) = req_echo ++ resp_sync ++ [x01]
  /\ (Recv h0 client_two).1 = (req_echo, None)
  /\ (Recv h0 (Recv h0 client_two).2).1 = (resp_sync, None)
  /\ rd_data (Reader (Recv h0 (Recv h0 client_two).2).2) = [x01].
Proof.
  assert (H1 : length (Head client_two) = HeadLen) by reflexivity.
  assert (H2 : rd_data (Reader client_two) = req_echo ++ resp_sync ++ [x01])
    by reflexivity.
  assert (H3 : hook_passed (beforeRecv h0) (Conn client_two) conn0)
    by (by apply hook_absent).
  assert (H4 : hook_passed (beforeRecv h0) conn0 conn0)
    by (by apply hook_absent).
  assert (H5 : (HeadLen <= length req_echo)%nat) by (vm_compute; lia).
  assert (H6 : (HeadLen <= length resp_sync)%nat) by (vm_compute; lia).
  assert (H7 : message (take HeadLen req_echo) =
               (take HeadLen req_echo ++ replicate (length req_echo - HeadLen) x00,
                None)) by reflexivity.
  assert (H8 : message (take HeadLen resp_sync) =
               (take HeadLen resp_sync ++ replicate (length resp_sync - HeadLen) x00,
                None)) by reflexivity.
  destruct (Recv_consecutive_frames h0 client_two conn0 conn0 req_echo resp_sync
              [x01] H1 H2 H3 H4 H5 H6 H7 H8) as (Hr1 & Hr2 & Hrest & _).
  split; [exact H2 |]. split; [exact Hr1 |]. split; [exact Hr2 | exact Hrest].
Defined.

(** A stream that ends right after the head of a frame with a body. *)
Lemma Recv_end_of_stream_witness :
  rd_err (Reader client_cut) = EOF
  /\ length (rd_data (Reader client_cut)) = HeadLen
  /\ (Recv h0 client_cut).1.2 = Some EOF
  /\ length (Recv h0 client_cut).1.1 = 22%nat.
Proof.
  assert (H1 : hook_passed (beforeRecv h0) (Conn client_cut) conn0)
    by (by apply hook_absent).
  assert (H2 : length (Head client_cut) = HeadLen) by reflexivity.
  assert (H3 : rd_err (Reader client_cut) = EOF) by reflexivity.
  assert (H4 : length (rd_data (Reader client_cut)) = HeadLen) by reflexivity.
  destruct (Recv_end_of_stream h0 client_cut conn0 H1 H2 H3) as (_ & _ & Hcut).
  assert (H5 : (HeadLen <= length (rd_data (Reader client_cut)))%nat)
    by (vm_compute; lia).
  assert (H6 : message (take HeadLen (rd_data (Reader client_cut))) =
               (take 16 req_echo ++ replicate 6 x00, None)) by reflexivity.
  assert (H7 : (HeadLen < length (take 16 req_echo ++ replicate 6 x00))%nat)
    by (vm_compute; lia).
  destruct (Hcut _ H5 H6 H7) as [Heof _].
  split; [exact H3 |]. split; [exact H4 |].
  rewrite (Heof H4). split; reflexivity.
Defined.

(** Two handlers that differ in everything but the route of "echo". *)
Lemma OnMessage_reads_one_route_witness :
  route_lookup h2 (Method req_echo) =
    route_lookup (BeforeSend (Handle h0 "echo" echo).1 (Some reject)) (Method req_echo)
  /\ OnMessage h2 req_echo w0 =
     OnMessage (BeforeSend (Handle h0 "echo" echo).1 (Some reject)) req_echo w0.
Proof.
  assert (H1 : route_lookup h2 (Method req_echo) =
               route_lookup (BeforeSend (Handle h0 "echo" echo).1 (Some reject))
                 (Method req_echo)) by reflexivity.
  split; [exact H1 |].
  exact (OnMessage_reads_one_route h2 _ req_echo w0 H1).
Defined.

(** The first registration on a new handler. *)
Lemma NewHandler_fresh_witness :
  (String.length "echo" <= MaxMethodLen)%nat
  /\ (Handle (NewHandler (U := App) no_input) "echo" echo).2 = None
  /\ route_lookup (Handle (NewHandler (U := App) no_input) "echo" echo).1 "echo" =
       Some echo
  /\ route_lookup (Handle (NewHandler (U := App) no_input) "echo" echo).1 "boom" =
       None.
Proof.
  assert (H1 : (String.length "echo" <= MaxMethodLen)%nat) by (vm_compute; lia).
  destruct (NewHandler_fresh (U := App) no_input (fun conn => no_input conn 0)
              "echo" echo H1)
    as (_ & _ & _ & _ & Hok & Hroutes).
  split; [exact H1 |]. split; [exact Hok |].
  split; [by rewrite Hroutes | by rewrite Hroutes].
Defined.

(** Registering "boom" through a clone of a handler that routes "echo". *)
Lemma Clone_shares_routes_witness :
  m_routes s_tab = Some 0%nat
  /\ route_lookup (view mem_tab s_tab) "boom" = None
  /\ (Handle_mem mem_tab (Clone s_tab) "boom" boom).2 = None
  /\ route_lookup
       (view (Handle_mem mem_tab (Clone s_tab) "boom" boom).1.1 s_tab) "boom" =
       Some boom
  /\ (Handle_mem mem_tab (Clone s_tab) "echo" boom).2 =
       Some (Errorf "handler exist for method %v " [ArgStr "echo"]).
Proof.
  assert (H1 : m_routes s_tab = Some 0%nat) by reflexivity.
  assert (H2 : route_lookup (view mem_tab s_tab) "boom" = None) by reflexivity.
  destruct (Clone_shares_routes mem_tab s_tab 0%nat "boom" boom H1)
    as (_ & Hp & Hseen).
  assert (H3 : (Handle_mem mem_tab (Clone s_tab) "boom" boom).2 = None)
    by (rewrite Hp; reflexivity).
  destruct (Clone_shares_routes mem_tab s_tab 0%nat "echo" boom H1)
    as (_ & Hdup & _).
  split; [exact H1 |]. split; [exact H2 |]. split; [exact H3 |].
  split; [exact (Hseen H3) |]. rewrite Hdup. reflexivity.
Defined.

(** The first registration on a struct without table, next to the table
    at location 0. *)
Lemma Handle_mem_allocates_witness :
  m_routes s_nil = None
  /\ m_routes (Handle_mem mem_tab s_nil "boom" boom).1.2 = Some (fresh (dom mem_tab))
  /\ (Handle_mem mem_tab s_nil "boom" boom).1.1 !! 0%nat = mem_tab !! 0%nat
  /\ route_lookup
       (view (Handle_mem mem_tab s_nil "boom" boom).1.1 (Clone s_nil)) "boom" = None.
Proof.
  assert (H1 : m_routes s_nil = None) by reflexivity.
  destruct (Handle_mem_allocates mem_tab s_nil "boom" boom H1)
    as (_ & Hloc & Hframe & Hclone & _).
  split; [exact H1 |]. split; [exact Hloc |]. split; [| exact (Hclone "boom")].
  apply Hframe. vm_compute. reflexivity.
Defined.

(** A handled Request is released once. *)
Lemma OnMessage_settles_once_witness :
  ~ (is_call req_echo /\ MethodLen req_echo = 0%nat)
  /\ ~ (Cmd req_echo = CmdResponse /\ MethodLen req_echo <> 0%nat)
  /\ settlements req_echo (w_trace (OnMessage h2 req_echo w0).1) = 1%nat.
Proof.
  assert (H1 : ~ (is_call req_echo /\ MethodLen req_echo = 0%nat))
    by (intros [_ Habs]; discriminate Habs).
  assert (H2 : ~ (Cmd req_echo = CmdResponse /\ MethodLen req_echo <> 0%nat))
    by (intros [Habs _]; discriminate Habs).
  split; [exact H1 |]. split; [exact H2 |].
  exact (OnMessage_settles_once h2 req_echo w0 H1 H2).
Defined.
